(** * oblogout: the DBus controller (src/oblogout/dbushandler.py)

    A shallow embedding of [DbusController].  The class talks to the system
    and session buses through dbus-python; the buses and the services behind
    them are the environment.  Every operation of dbus-python that the class
    uses is a primitive of a state-and-exception monad: it asks the
    environment for its outcome, records an event in a trace, and either
    returns or raises [dbus.DBusException].  The class attributes of
    [DbusController] (where the properties keep their handles) are a finite
    map from attribute names to objects.

    [self.logger.debug] calls are left out: they only format strings already
    at hand and write to the log. *)

From Stdlib Require Import ZArith List Bool Ascii String Lia.
From stdpp Require Import base option strings gmap.

Local Open Scope Z_scope.
Local Open Scope string_scope.

(** ** Python values *)

(** The values that cross the DBus boundary in this program: what a remote
    method returns or an attribute read yields.  [PArray] is a [dbus.Array]
    of object paths (the reply of [GetSeats] and [GetSessions]);
    [PProxyMethod] is the bound proxy method that [dbus.Interface] hands out
    for a member name. *)
Inductive pyval : Type :=
| PNone
| PBool (b : bool)
| PInt (z : Z)
| PStr (s : string)
| PArray (paths : list string)
| PProxyMethod (member : string).

(** [v == s] for a string literal [s]. *)
Definition py_eq_str (v : pyval) (s : string) : bool :=
  match v with
  | PStr s' => String.eqb s' s
  | _ => false
  end.

(** Truth value of an object, as [not] and [if] test it. *)
Definition py_truthy (v : pyval) : bool :=
  match v with
  | PNone => false
  | PBool b => b
  | PInt z => negb (Z.eqb z 0)
  | PStr s => negb (String.eqb s "")
  | PArray l => match l with [] => false | _ => true end
  | PProxyMethod _ => true
  end.

(** ** Exceptions and results *)

Inductive exn : Type :=
| DBusException (name : string)
| TypeError
| AttributeError (attr : string).

Inductive result (A : Type) : Type :=
| Ok (a : A)
| Raise (e : exn).
Arguments Ok {A} a.
Arguments Raise {A} e.

(** ** Handles *)

Inductive bus : Type := System | Session.

(** [bus.get_object (...)] and [dbus.Interface (...)] build a fresh Python
    object at every call; [px_id] and [if_id] are the objects' identities. *)
Record ProxyObject : Type := mkProxy
  { px_id : nat; px_bus : bus; px_args : list pyval }.

Record Interface : Type := mkInterface
  { if_id : nat; if_obj : ProxyObject; if_name : string }.

Inductive pyobj : Type :=
| OBus (b : bus)
| OInterface (i : Interface).

(** ** Events and the environment *)

(** Outcome of a remote operation: a value, or a fault that dbus-python
    raises as [dbus.DBusException]. *)
Inductive reply : Type :=
| Reply (v : pyval)
| Fault (name : string).

Inductive event : Type :=
| EvBus (b : bus) (err : option string)
| EvGetObject (b : bus) (args : list pyval) (err : option string)
| EvInterface (i : Interface)
| EvCall (i : Interface) (member : string) (args : list pyval)
         (kwargs : list (string * pyval)) (r : reply)
| EvGetAttr (i : Interface) (member : string) (r : reply)
| EvPrint (s : string).

(** The environment answers every request from the history so far (newest
    event first), so a service may answer the same request differently at
    different times. *)
Record World : Type := mkWorld
  { bus_connect : list event -> bus -> option string;
    bus_get_object : list event -> bus -> list pyval -> option string;
    remote_call : list event -> Interface -> string -> list pyval ->
                  list (string * pyval) -> reply;
    remote_getattr : list event -> Interface -> string -> reply }.

(** ** Interpreter state and monad *)

Record state : Type := mkState
  { attrs : gmap string pyobj;   (* data attributes of class DbusController *)
    trace : list event;          (* newest first *)
    next_id : nat }.

Definition init_state : state :=
  {| attrs := ∅; trace := []; next_id := 0 |}.

Definition M (A : Type) : Type := state -> result A * state.

Definition ret {A} (a : A) : M A := fun st => (Ok a, st).

Definition raise {A} (e : exn) : M A := fun st => (Raise e, st).

Definition bind {A B} (m : M A) (k : A -> M B) : M B :=
  fun st =>
    match m st with
    | (Ok a, st') => k a st'
    | (Raise e, st') => (Raise e, st')
    end.

(** [try: body except dbus.DBusException: handler] *)
Definition try_except_DBusException {A} (body : M A) (handler : M A) : M A :=
  fun st =>
    match body st with
    | (Raise (DBusException _), st') => handler st'
    | other => other
    end.

Declare Scope py_scope.
Delimit Scope py_scope with py.
Notation "'do' x <- m ; k" := (bind m (fun x => k))
  (at level 10, x name, m at level 100, k at level 200) : py_scope.
Notation "'do' ' p <- m ; k" := (bind m (fun x => match x with p => k end))
  (at level 10, p pattern, m at level 100, k at level 200) : py_scope.
Notation "m1 ;; m2" := (bind m1 (fun _ => m2))
  (at level 100, m2 at level 200, right associativity) : py_scope.
Local Open Scope py_scope.

Definition log (ev : event) : M unit :=
  fun st => (Ok tt, {| attrs := attrs st; trace := ev :: trace st;
                       next_id := next_id st |}).

Definition fresh_id : M nat :=
  fun st => (Ok (next_id st), {| attrs := attrs st; trace := trace st;
                                 next_id := S (next_id st) |}).

Definition history : M (list event) := fun st => (Ok (trace st), st).

(** ** Class attributes and private name mangling *)

Definition ends_with (suffix s : string) : bool :=
  String.prefix (String.rev suffix) (String.rev s).

Fixpoint lstrip_underscores (s : string) : string :=
  match s with
  | String "_" s' => lstrip_underscores s'
  | _ => s
  end.

(** An identifier [__name] (two leading underscores, not ending in two)
    written inside the body of class [cls] is compiled as [_cls__name].
    String literals are not identifiers and are left alone. *)
Definition mangle_in (cls name : string) : string :=
  if String.prefix "__" name && negb (ends_with "__" name)
  then "_" ++ lstrip_underscores cls ++ name
  else name.

Definition mangle : string -> string := mangle_in "DbusController".

(** [hasattr (DbusController, name)] *)
Definition hasattr (name : string) : M bool :=
  fun st => (Ok (bool_decide (is_Some (attrs st !! name))), st).

(** [DbusController.<name> = v] with [name] as compiled *)
Definition setattr (name : string) (v : pyobj) : M unit :=
  fun st => (Ok tt, {| attrs := <[name := v]> (attrs st); trace := trace st;
                       next_id := next_id st |}).

(** [DbusController.<name>] with [name] as compiled *)
Definition getattr (name : string) : M pyobj :=
  fun st =>
    match attrs st !! name with
    | Some v => (Ok v, st)
    | None => (Raise (AttributeError name), st)
    end.

(** Using a stored attribute as a bus ([.get_object]) or as an interface
    (a method call or member read): the wrong kind of object has no such
    member. *)
Definition as_bus (o : pyobj) : M bus :=
  match o with
  | OBus b => ret b
  | OInterface _ => raise (AttributeError "get_object")
  end.

Definition as_interface (o : pyobj) : M Interface :=
  match o with
  | OInterface i => ret i
  | OBus _ => raise (AttributeError "member")
  end.

(** [for x in v] and [len (v)] *)
Definition py_iter (v : pyval) : M (list pyval) :=
  match v with
  | PArray l => ret (map PStr l)
  | PStr s => ret (map (fun c => PStr (String c EmptyString)) (list_ascii_of_string s))
  | _ => raise TypeError
  end.

Definition py_len (v : pyval) : M Z :=
  match v with
  | PArray l => ret (Z.of_nat (List.length l))
  | PStr s => ret (Z.of_nat (String.length s))
  | _ => raise TypeError
  end.

(** ** The controller *)

Record DbusController : Type := mkController { backend : pyval }.

Section Controller.

Variable w : World.   (* the buses and the services behind them *)
Variable pid : Z.     (* os.getpid () *)

(** *** dbus-python primitives *)

(** [dbus.SystemBus ()] / [dbus.SessionBus ()] *)
Definition dbus_bus (b : bus) : M pyobj :=
  do h <- history;
  match bus_connect w h b with
  | None => log (EvBus b None);; ret (OBus b)
  | Some e => log (EvBus b (Some e));; raise (DBusException e)
  end.

Definition SystemBus : M pyobj := dbus_bus System.
Definition SessionBus : M pyobj := dbus_bus Session.

(** [o.get_object (args...)] *)
Definition get_object (o : pyobj) (args : list pyval) : M ProxyObject :=
  do b <- as_bus o;
  do h <- history;
  match bus_get_object w h b args with
  | None =>
      log (EvGetObject b args None);;
      do n <- fresh_id;
      ret (mkProxy n b args)
  | Some e => log (EvGetObject b args (Some e));; raise (DBusException e)
  end.

(** [dbus.Interface (obj, name)] *)
Definition dbus_Interface (obj : ProxyObject) (name : string) : M pyobj :=
  do n <- fresh_id;
  log (EvInterface (mkInterface n obj name));;
  ret (OInterface (mkInterface n obj name)).

(** [o.member (args..., kwargs...)] *)
Definition call (o : pyobj) (member : string) (args : list pyval)
    (kwargs : list (string * pyval)) : M pyval :=
  do i <- as_interface o;
  do h <- history;
  log (EvCall i member args kwargs (remote_call w h i member args kwargs));;
  match remote_call w h i member args kwargs with
  | Reply v => ret v
  | Fault e => raise (DBusException e)
  end.

(** [o.member] *)
Definition read_member (o : pyobj) (member : string) : M pyval :=
  do i <- as_interface o;
  do h <- history;
  log (EvGetAttr i member (remote_getattr w h i member));;
  match remote_getattr w h i member with
  | Reply v => ret v
  | Fault e => raise (DBusException e)
  end.

(** [print (s)] *)
Definition print (s : string) : M unit := log (EvPrint s).

(** *** Properties *)

Definition _sysbus : M pyobj :=
  do has <- hasattr "__sysbus";
  (if negb has then
     do v <- SystemBus;
     setattr (mangle "__sysbus") v
   else ret tt);;
  getattr (mangle "__sysbus").

Definition _sessbus : M pyobj :=
  do has <- hasattr "__sessbus";
  (if negb has then
     do v <- SessionBus;
     setattr (mangle "__sessbus") v
   else ret tt);;
  getattr (mangle "__sessbus").

Definition _upower : M pyobj :=
  do has <- hasattr "__upower";
  (if negb has then
     do sysbus <- _sysbus;
     do upower <- get_object sysbus
                    [PStr "org.freedesktop.UPower"; PStr "/org/freedesktop/UPower"];
     do v <- dbus_Interface upower "org.freedesktop.UPower";
     setattr (mangle "__upower") v
   else ret tt);;
  getattr (mangle "__upower").

Definition _polkit : M pyobj :=
  do has <- hasattr "__polkit";
  (if negb has then
     do sysbus <- _sysbus;
     do pk <- get_object sysbus [PStr "org.freedesktop.PolicyKit"; PStr "/"];
     do v <- dbus_Interface pk "org.freedesktop.PolicyKit";
     setattr (mangle "__polkit") v
   else ret tt);;
  getattr (mangle "__polkit").

Definition _consolekit : M pyobj :=
  do has <- hasattr "__consolekit";
  (if negb has then
     do sysbus <- _sysbus;
     do consolekit <- get_object sysbus
                        [PStr "org.freedesktop.ConsoleKit";
                         PStr "/org/freedesktop/ConsoleKit/Manager"];
     do v <- dbus_Interface consolekit "org.freedesktop.ConsoleKit.Manager";
     setattr (mangle "__consolekit") v
   else ret tt);;
  getattr (mangle "__consolekit").

Definition _halpm : M pyobj :=
  do has <- hasattr "__halpm";
  (if negb has then
     do sysbus <- _sysbus;
     do hal <- get_object sysbus
                 [PStr "org.freedesktop.Hal";
                  PStr "/org/freedesktop/Hal/devices/computer"];
     do v <- dbus_Interface hal "org.freedesktop.Hal.Device.SystemPowerManagement";
     setattr (mangle "__halpm") v
   else ret tt);;
  getattr (mangle "__halpm").

Definition _authagent : M pyobj :=
  do has <- hasattr "__authagent";
  (if negb has then
     do sessbus <- _sessbus;
     do autha <- get_object sessbus
                   [PStr "org.freedesktop.PolicyKit.AuthenticationAgent";
                    PStr "/";
                    PStr "org.gnome.PolicyKit.AuthorizationManager.SingleInstance"];
     do v <- dbus_Interface autha "org.freedesktop.PolicyKit.AuthenticationAgent";
     setattr (mangle "__authagent") v
   else ret tt);;
  getattr (mangle "__authagent").

(** *** Permissions *)

Definition check_perms (id : string) : M bool :=
  do polkit <- _polkit;
  do res <- call polkit "IsProcessAuthorized" [PStr id; PInt pid; PBool false] [];
  if py_eq_str res "yes" then ret true else ret false.

Definition auth_perms (id : string) : M bool :=
  do granted <- check_perms id;
  if granted then ret true
  else
    do authagent <- _authagent;
    do grant <- call authagent "ObtainAuthorization" [PStr id; PInt 0; PInt pid]
                  [("timeout", PInt 300);
                   ("dbus_interface",
                    PStr "org.freedesktop.PolicyKit.AuthenticationAgent")];
    check_perms id.

(** *** Session count *)

(** The body of [for sid in seats], with the running count. *)
Fixpoint count_sessions (seats : list pyval) (cnt : Z) : M Z :=
  match seats with
  | [] => ret cnt
  | sid :: rest =>
      do sysbus <- SystemBus;
      do seat_obj <- get_object sysbus [PStr "org.freedesktop.ConsoleKit"; sid];
      do seat <- dbus_Interface seat_obj "org.freedesktop.ConsoleKit.Seat";
      do sessions <- call seat "GetSessions" [] [];
      do n <- py_len sessions;
      count_sessions rest (cnt + n)
  end.

Definition get_sessions : M Z :=
  do consolekit <- _consolekit;
  do seats <- call consolekit "GetSeats" [] [];
  do sids <- py_iter seats;
  count_sessions sids 0.

(** *** Public operations *)

Definition check (self : DbusController) : M bool :=
  if py_eq_str (backend self) "HAL" then
    try_except_DBusException
      (do sysbus <- _sysbus;
       get_object sysbus [PStr "org.freedesktop.Hal";
                          PStr "/org/freedesktop/Hal/devices/computer"];;
       ret true)
      (print "No .service files for HAL, fallbacking to none";;
       ret false)
  else if py_eq_str (backend self) "ConsoleKit" then
    try_except_DBusException
      (do sysbus <- _sysbus;
       get_object sysbus [PStr "org.freedesktop.ConsoleKit";
                          PStr "/org/freedesktop/ConsoleKit/Manager"];;
       do sysbus' <- _sysbus;
       get_object sysbus' [PStr "org.freedesktop.UPower";
                           PStr "/org/freedesktop/UPower"];;
       ret true)
      (print "No .service files for ConsoleKit or UPower, fallbacking to none";;
       ret false)
  else ret false.

Definition check_ability (self : DbusController) (action : pyval) : M pyval :=
  if py_eq_str (backend self) "HAL" then
    if py_eq_str action "suspend" then
      do halpm <- _halpm; read_member halpm "CanSuspend"
    else if py_eq_str action "hibernate" then
      do halpm <- _halpm; read_member halpm "CanHibernate"
    else if py_eq_str action "safesuspend" then
      do halpm <- _halpm;
      do can_hibernate <- read_member halpm "CanHibernate";
      do unable <- (if negb (py_truthy can_hibernate) then ret true
                    else
                      do halpm' <- _halpm;
                      do can_suspend <- read_member halpm' "CanSuspend";
                      ret (negb (py_truthy can_suspend)));
      if unable then ret (PBool false) else ret (PBool true)
    else ret (PBool true)
  else if py_eq_str (backend self) "ConsoleKit" then
    if py_eq_str action "suspend" then
      do upower <- _upower; read_member upower "CanSuspend"
    else if py_eq_str action "hibernate" then
      do upower <- _upower; read_member upower "CanHibernate"
    else if py_eq_str action "safesuspend" then
      do upower <- _upower;
      do can_hibernate <- read_member upower "CanHibernate";
      do unable <- (if negb (py_truthy can_hibernate) then ret true
                    else
                      do upower' <- _upower;
                      do can_suspend <- read_member upower' "CanSuspend";
                      ret (negb (py_truthy can_suspend)));
      if unable then ret (PBool false) else ret (PBool true)
    else ret (PBool true)
  else ret (PBool true).

Definition restart (self : DbusController) : M pyval :=
  if py_eq_str (backend self) "HAL" then
    do cnt <- get_sessions;
    if Z.gtb cnt 1 then
      do authorised <-
        auth_perms "org.freedesktop.hal.power-management.reboot-multiple-sessions";
      if negb authorised then ret (PBool false)
      else
        do halpm <- _halpm;
        call halpm "Reboot" [] []
    else
      do authorised <-
        auth_perms "org.freedesktop.hal.power-management.reboot";
      if negb authorised then ret (PBool false)
      else
        do halpm <- _halpm;
        call halpm "Reboot" [] []
  else if py_eq_str (backend self) "ConsoleKit" then
    do consolekit <- _consolekit;
    call consolekit "Restart" [] []
  else ret (PBool false).

Definition shutdown (self : DbusController) : M pyval :=
  if py_eq_str (backend self) "HAL" then
    do cnt <- get_sessions;
    if Z.gtb cnt 1 then
      do authorised <-
        auth_perms "org.freedesktop.hal.power-management.shutdown-multiple-sessions";
      if negb authorised then ret (PBool false)
      else
        do halpm <- _halpm;
        call halpm "Shutdown" [] []
    else
      do authorised <-
        auth_perms "org.freedesktop.hal.power-management.shutdown";
      if negb authorised then ret (PBool false)
      else
        do halpm <- _halpm;
        call halpm "Shutdown" [] []
  else if py_eq_str (backend self) "ConsoleKit" then
    do consolekit <- _consolekit;
    call consolekit "Stop" [] []
  else ret (PBool false).

Definition suspend (self : DbusController) : M pyval :=
  if py_eq_str (backend self) "HAL" then
    do authorised <- auth_perms "org.freedesktop.hal.power-management.suspend";
    if negb authorised then ret (PBool false)
    else
      do halpm <- _halpm;
      call halpm "Suspend" [] []
  else if py_eq_str (backend self) "ConsoleKit" then
    do upower <- _upower;
    call upower "Suspend" [] []
  else ret (PBool false).

Definition hibernate (self : DbusController) : M pyval :=
  if py_eq_str (backend self) "HAL" then
    do authorised <- auth_perms "org.freedesktop.hal.power-management.hibernate";
    if negb authorised then ret (PBool false)
    else
      do halpm <- _halpm;
      call halpm "Hibernate" [] []
  else if py_eq_str (backend self) "ConsoleKit" then
    do upower <- _upower;
    call upower "Hibernate" [] []
  else ret (PBool false).

(** The body is [pass]: the call returns [None]. *)
Definition safesuspend (self : DbusController) : M pyval := ret PNone.

End Controller.

(** ** A simulated environment *)

(** A small scripted system used to run the controller on concrete inputs:
    which services are on the bus, the seats and their sessions, what
    PolicyKit answers before and after the agent has been asked, and what
    the agent and the power services answer. *)
Record Sim : Type := mkSim
  { sim_services : list string;               (* bus names that resolve *)
    sim_seats : list (string * list string);  (* seat path, session paths *)
    sim_status_before : pyval;                (* IsProcessAuthorized, agent not asked *)
    sim_status_after : pyval;                 (* IsProcessAuthorized, agent asked *)
    sim_grant : reply;                        (* ObtainAuthorization *)
    sim_can_suspend : pyval;
    sim_can_hibernate : pyval;
    sim_power : pyval }.                      (* reply of a power method *)

Definition is_obtain (ev : event) : bool :=
  match ev with
  | EvCall _ member _ _ _ => String.eqb member "ObtainAuthorization"
  | _ => false
  end.

Definition sim_world (s : Sim) : World :=
  {| bus_connect := fun _ _ => None;
     bus_get_object := fun _ _ args =>
       match args with
       | PStr name :: _ =>
           if existsb (String.eqb name) (sim_services s) then None
           else Some "org.freedesktop.DBus.Error.ServiceUnknown"
       | _ => Some "org.freedesktop.DBus.Error.ServiceUnknown"
       end;
     remote_call := fun h i member _ _ =>
       if String.eqb member "GetSeats" then
         Reply (PArray (map fst (sim_seats s)))
       else if String.eqb member "GetSessions" then
         match px_args (if_obj i) with
         | [_; PStr seat] =>
             match find (fun p => String.eqb (fst p) seat) (sim_seats s) with
             | Some p => Reply (PArray (snd p))
             | None => Fault "org.freedesktop.DBus.Error.UnknownObject"
             end
         | _ => Fault "org.freedesktop.DBus.Error.UnknownObject"
         end
       else if String.eqb member "IsProcessAuthorized" then
         Reply (if existsb is_obtain h then sim_status_after s
                else sim_status_before s)
       else if String.eqb member "ObtainAuthorization" then sim_grant s
       else Reply (sim_power s);
     remote_getattr := fun _ _ member =>
       if String.eqb member "CanSuspend" then Reply (sim_can_suspend s)
       else if String.eqb member "CanHibernate" then Reply (sim_can_hibernate s)
       else Fault "org.freedesktop.DBus.Error.UnknownProperty" |}.

Definition all_services : list string :=
  ["org.freedesktop.Hal"; "org.freedesktop.ConsoleKit"; "org.freedesktop.UPower";
   "org.freedesktop.PolicyKit"; "org.freedesktop.PolicyKit.AuthenticationAgent"].

(** Two seats with one session each; PolicyKit says "no" before and after
    the agent is asked, although the agent itself answers [True]. *)
Definition sim_denied : Sim :=
  {| sim_services := all_services;
     sim_seats := [("/Seat1", ["/Session1"]); ("/Seat2", ["/Session2"])];
     sim_status_before := PStr "no";
     sim_status_after := PStr "no";
     sim_grant := Reply (PBool true);
     sim_can_suspend := PBool true;
     sim_can_hibernate := PBool true;
     sim_power := PInt 0 |}.

(** One seat, one session; PolicyKit says "auth_admin" first and "yes" once
    the agent has been asked, although the agent itself answers [False]. *)
Definition sim_granted_late : Sim :=
  {| sim_services := all_services;
     sim_seats := [("/Seat1", ["/Session1"])];
     sim_status_before := PStr "auth_admin";
     sim_status_after := PStr "yes";
     sim_grant := Reply (PBool false);
     sim_can_suspend := PBool true;
     sim_can_hibernate := PBool false;
     sim_power := PInt 0 |}.

Definition HAL : DbusController := {| backend := PStr "HAL" |}.
Definition ConsoleKit : DbusController := {| backend := PStr "ConsoleKit" |}.
Definition NoBackend : DbusController := {| backend := PNone |}.

Definition calls_of (l : list event) : list (string * list pyval * reply) :=
  omap (fun ev => match ev with
                  | EvCall _ m a _ r => Some (m, a, r)
                  | _ => None
                  end) l.

(** ** Well-formed class dictionaries and trace extension *)

Local Open Scope list_scope.

(** Private name mangling means that the class body never stores an
    attribute whose name starts with two underscores: the class dictionary
    of a running program has none. *)
Definition wf (st : state) : Prop :=
  forall n, String.prefix "__" n = true -> attrs st !! n = None.

Lemma wf_init : wf init_state.
Proof. intros n _. reflexivity. Qed.

(** [emits Q m]: running [m] only adds events to the trace, each of them
    satisfying [Q], and keeps the class dictionary well formed. *)
Definition emits {A} (Q : event -> Prop) (m : M A) : Prop :=
  forall st,
    (exists l, trace (m st).2 = l ++ trace st /\ Forall Q l) /\
    (wf st -> wf (m st).2).

Definition is_resolution (ev : event) : Prop :=
  match ev with
  | EvBus _ _ | EvGetObject _ _ _ | EvInterface _ => True
  | _ => False
  end.

Section Emits.

Context {A B : Type} (Q : event -> Prop).

Lemma emits_silent (m : M A) :
  (forall st, (m st).2 = st) -> emits Q m.
Proof.
  intros H st. rewrite H. split; [exists []; split; [reflexivity | constructor] | auto].
Qed.

Lemma emits_ret (a : A) : emits Q (ret a).
Proof. apply emits_silent. reflexivity. Qed.

Lemma emits_raise (e : exn) : emits Q (raise (A := A) e).
Proof. apply emits_silent. reflexivity. Qed.

Lemma emits_bind (m : M A) (k : A -> M B) :
  emits Q m -> (forall a, emits Q (k a)) -> emits Q (bind m k).
Proof.
  intros Hm Hk st. unfold bind.
  destruct (Hm st) as [(l1 & E1 & F1) W1].
  destruct (m st) as [[a | e] st1]; simpl in *.
  - destruct (Hk a st1) as [(l2 & E2 & F2) W2]. split; [| auto].
    exists (l2 ++ l1). rewrite E2, E1, app_assoc. split; [reflexivity |].
    apply Forall_app. split; assumption.
  - split; [exists l1; auto | auto].
Qed.

Lemma emits_try (body handler : M A) :
  emits Q body -> emits Q handler ->
  emits Q (try_except_DBusException body handler).
Proof.
  intros Hb Hh st. unfold try_except_DBusException.
  destruct (Hb st) as [(l1 & E1 & F1) W1].
  destruct (body st) as [[a | [name | | attr]] st1]; simpl in *;
    try solve [split; [exists l1; auto | auto]].
  destruct (Hh st1) as [(l2 & E2 & F2) W2]. split; [| auto].
  exists (l2 ++ l1). rewrite E2, E1, app_assoc. split; [reflexivity |].
  apply Forall_app. split; assumption.
Qed.

Lemma emits_weaken (Q' : event -> Prop) (m : M A) :
  (forall ev, Q' ev -> Q ev) -> emits Q' m -> emits Q m.
Proof.
  intros HQ Hm st. destruct (Hm st) as [(l & E & F) W]. split; [| exact W].
  exists l. split; [exact E |]. eapply Forall_impl; eauto.
Qed.

End Emits.

Lemma emits_log (Q : event -> Prop) (ev : event) : Q ev -> emits Q (log ev).
Proof.
  intros H st. split; [exists [ev]; split; [reflexivity | auto] | auto].
Qed.

Lemma emits_fresh_id (Q : event -> Prop) : emits Q fresh_id.
Proof. intros st. split; [exists []; split; [reflexivity | constructor] | auto]. Qed.

Lemma emits_history (Q : event -> Prop) : emits Q history.
Proof. apply emits_silent. reflexivity. Qed.

Lemma emits_hasattr (Q : event -> Prop) (name : string) : emits Q (hasattr name).
Proof. apply emits_silent. reflexivity. Qed.

Lemma emits_getattr (Q : event -> Prop) (name : string) : emits Q (getattr name).
Proof.
  apply emits_silent. intros st. unfold getattr. destruct (attrs st !! name); reflexivity.
Qed.

Lemma emits_setattr (Q : event -> Prop) (name : string) (v : pyobj) :
  String.prefix "__" name = false -> emits Q (setattr name v).
Proof.
  intros Hn st. split; [exists []; split; [reflexivity | constructor] |].
  intros W n Hp. simpl. rewrite lookup_insert_ne; [auto | congruence].
Qed.

Lemma emits_as_bus (Q : event -> Prop) (o : pyobj) : emits Q (as_bus o).
Proof. destruct o; [apply emits_ret | apply emits_raise]. Qed.

Lemma emits_as_interface (Q : event -> Prop) (o : pyobj) : emits Q (as_interface o).
Proof. destruct o; [apply emits_raise | apply emits_ret]. Qed.

Lemma emits_py_iter (Q : event -> Prop) (v : pyval) : emits Q (py_iter v).
Proof. destruct v; first [apply emits_ret | apply emits_raise]. Qed.

Lemma emits_py_len (Q : event -> Prop) (v : pyval) : emits Q (py_len v).
Proof. destruct v; first [apply emits_ret | apply emits_raise]. Qed.

Ltac emits_step :=
  first
    [ apply emits_bind; [| intros ?]
    | apply emits_try
    | apply emits_ret
    | apply emits_raise
    | apply emits_history
    | apply emits_fresh_id
    | apply emits_hasattr
    | apply emits_getattr
    | apply emits_as_bus
    | apply emits_as_interface
    | apply emits_py_iter
    | apply emits_py_len
    | apply emits_setattr; reflexivity
    | apply emits_log
    | match goal with
      | |- emits _ (match ?x with _ => _ end) => destruct x
      end ].

Ltac emits_auto := repeat emits_step.

Section Primitives.

Variable w : World.
Variable pid : Z.
Variable Q : event -> Prop.

Lemma emits_dbus_bus (b : bus) :
  (forall err, Q (EvBus b err)) -> emits Q (dbus_bus w b).
Proof. intros H. unfold dbus_bus. emits_auto; apply H. Qed.

Lemma emits_get_object (o : pyobj) (args : list pyval) :
  (forall b err, Q (EvGetObject b args err)) -> emits Q (get_object w o args).
Proof. intros H. unfold get_object. emits_auto; apply H. Qed.

Lemma emits_dbus_Interface (obj : ProxyObject) (name : string) :
  (forall i, Q (EvInterface i)) -> emits Q (dbus_Interface obj name).
Proof. intros H. unfold dbus_Interface. emits_auto; apply H. Qed.

Lemma emits_call (o : pyobj) (member : string) (args : list pyval)
    (kwargs : list (string * pyval)) :
  (forall i r, Q (EvCall i member args kwargs r)) ->
  emits Q (call w o member args kwargs).
Proof. intros H. unfold call. emits_auto; apply H. Qed.

Lemma emits_read_member (o : pyobj) (member : string) :
  (forall i r, Q (EvGetAttr i member r)) -> emits Q (read_member w o member).
Proof. intros H. unfold read_member. emits_auto; apply H. Qed.

Hypothesis Q_resolution : forall ev, is_resolution ev -> Q ev.

Ltac resolution :=
  first [ apply emits_dbus_bus | apply emits_get_object
        | apply emits_dbus_Interface ];
  intros; apply Q_resolution; exact I.

Lemma emits_sysbus : emits Q (_sysbus w).
Proof. unfold _sysbus, SystemBus. repeat first [resolution | emits_step]. Qed.

Lemma emits_sessbus : emits Q (_sessbus w).
Proof. unfold _sessbus, SessionBus. repeat first [resolution | emits_step]. Qed.

Ltac accessor :=
  repeat first [ apply emits_sysbus | apply emits_sessbus | resolution | emits_step ].

Lemma emits_upower : emits Q (_upower w).
Proof. unfold _upower. accessor. Qed.

Lemma emits_polkit : emits Q (_polkit w).
Proof. unfold _polkit. accessor. Qed.

Lemma emits_consolekit : emits Q (_consolekit w).
Proof. unfold _consolekit. accessor. Qed.

Lemma emits_halpm : emits Q (_halpm w).
Proof. unfold _halpm. accessor. Qed.

Lemma emits_authagent : emits Q (_authagent w).
Proof. unfold _authagent. accessor. Qed.

End Primitives.

(** ** Vocabulary for traces *)

(** The state after one more event. *)
Definition logged (ev : event) (st : state) : state :=
  {| attrs := attrs st; trace := ev :: trace st; next_id := next_id st |}.

Definition call_named (names : list string) (ev : event) : bool :=
  match ev with
  | EvCall _ member _ _ _ => existsb (String.eqb member) names
  | _ => false
  end.

Definition is_status_query : event -> bool := call_named ["IsProcessAuthorized"].
Definition is_power_call : event -> bool :=
  call_named ["Reboot"; "Shutdown"; "Suspend"; "Hibernate"].
Definition is_session_call : event -> bool := call_named ["GetSeats"; "GetSessions"].

Lemma calls_of_app (l1 l2 : list event) :
  calls_of (l1 ++ l2) = calls_of l1 ++ calls_of l2.
Proof. apply omap_app. Qed.

Lemma calls_of_resolution (l : list event) :
  Forall is_resolution l -> calls_of l = [].
Proof.
  induction 1 as [| ev l Hev _ IH]; [reflexivity |].
  destruct ev; simpl in Hev; try contradiction; exact IH.
Qed.

Lemma py_eq_str_true (v : pyval) (s : string) :
  py_eq_str v s = true <-> v = PStr s.
Proof.
  destruct v; simpl; try (split; [discriminate | discriminate]).
  rewrite String.eqb_eq. split; [intros -> | intros [= ->]]; reflexivity.
Qed.

Lemma py_eq_str_false (v : pyval) (s : string) :
  py_eq_str v s = false <-> v <> PStr s.
Proof.
  rewrite <- py_eq_str_true. destruct (py_eq_str v s); split; congruence.
Qed.

Section Authorization.

Variable w : World.
Variable pid : Z.

(** The status query of [__check_perms] and the request of [__auth_perms]. *)
Definition status_args (id : string) : list pyval :=
  [PStr id; PInt pid; PBool false].

Definition obtain_args (id : string) : list pyval :=
  [PStr id; PInt 0; PInt pid].

Definition obtain_kwargs : list (string * pyval) :=
  [("timeout", PInt 300);
   ("dbus_interface", PStr "org.freedesktop.PolicyKit.AuthenticationAgent")].

Lemma call_run (i : Interface) (member : string) (args : list pyval)
    (kwargs : list (string * pyval)) (st : state) :
  call w (OInterface i) member args kwargs st =
  (match remote_call w (trace st) i member args kwargs with
   | Reply v => Ok v
   | Fault e => Raise (DBusException e)
   end,
   logged (EvCall i member args kwargs
             (remote_call w (trace st) i member args kwargs)) st).
Proof.
  unfold call, bind. simpl.
  destruct (remote_call w (trace st) i member args kwargs); reflexivity.
Qed.

Lemma call_inv (o : pyobj) (member : string) (args : list pyval)
    (kwargs : list (string * pyval)) (st st' : state) (v : pyval) :
  call w o member args kwargs st = (Ok v, st') ->
  exists i, o = OInterface i /\
    remote_call w (trace st) i member args kwargs = Reply v /\
    st' = logged (EvCall i member args kwargs (Reply v)) st.
Proof.
  destruct o as [b | i]; [discriminate |].
  rewrite call_run. intros H. exists i.
  destruct (remote_call w (trace st) i member args kwargs) as [v' | e];
    inversion H; subst; auto.
Qed.

Lemma accessor_trace {A} (m : M A) (st st' : state) (r : result A) :
  emits is_resolution m -> m st = (r, st') ->
  exists l, trace st' = l ++ trace st /\ calls_of l = [].
Proof.
  intros Hm E. destruct (Hm st) as [(l & El & Fl) _]. rewrite E in El.
  exists l. split; [exact El | apply calls_of_resolution, Fl].
Qed.

Lemma check_perms_run (id : string) (st st0 : state) (polkit : Interface)
    (res : pyval) :
  _polkit w st = (Ok (OInterface polkit), st0) ->
  remote_call w (trace st0) polkit "IsProcessAuthorized" (status_args id) []
    = Reply res ->
  check_perms w pid id st =
  (Ok (py_eq_str res "yes"),
   logged (EvCall polkit "IsProcessAuthorized" (status_args id) [] (Reply res)) st0).
Proof.
  intros Hp Hr. unfold check_perms, bind at 1. rewrite Hp.
  unfold bind. fold (status_args id). rewrite call_run, Hr.
  destruct (py_eq_str res "yes"); reflexivity.
Qed.

Lemma check_perms_inv (id : string) (st st' : state) (b : bool) :
  check_perms w pid id st = (Ok b, st') ->
  exists polkit st0 res,
    _polkit w st = (Ok (OInterface polkit), st0) /\
    remote_call w (trace st0) polkit "IsProcessAuthorized" (status_args id) []
      = Reply res /\
    b = py_eq_str res "yes" /\
    st' = logged (EvCall polkit "IsProcessAuthorized" (status_args id) []
                    (Reply res)) st0.
Proof.
  unfold check_perms, bind at 1.
  destruct (_polkit w st) as [[o | e] st0] eqn:Hp; [| discriminate].
  unfold bind. fold (status_args id).
  destruct (call w o "IsProcessAuthorized" (status_args id) [] st0)
    as [[res | e] st1] eqn:Hc; [| discriminate].
  apply call_inv in Hc as (i & -> & Hr & ->).
  intros H. exists i, st0, res. repeat split; auto.
  - destruct (py_eq_str res "yes"); inversion H; reflexivity.
  - destruct (py_eq_str res "yes"); inversion H; reflexivity.
Qed.

Lemma auth_perms_inv (id : string) (st st' : state) (b : bool) :
  auth_perms w pid id st = (Ok b, st') ->
  (check_perms w pid id st = (Ok true, st') /\ b = true) \/
  (exists st1 authagent st2 grant st3,
     check_perms w pid id st = (Ok false, st1) /\
     _authagent w st1 = (Ok authagent, st2) /\
     call w authagent "ObtainAuthorization" (obtain_args id) obtain_kwargs st2
       = (Ok grant, st3) /\
     check_perms w pid id st3 = (Ok b, st')).
Proof.
  unfold auth_perms, bind at 1.
  destruct (check_perms w pid id st) as [[[|] | e] st1] eqn:Hc;
    [| | discriminate].
  - intros [= <- <-]. left. split; reflexivity.
  - unfold bind at 1.
    destruct (_authagent w st1) as [[ag | e] st2] eqn:Ha; [| discriminate].
    unfold bind. fold (obtain_args id). fold obtain_kwargs.
    destruct (call w ag "ObtainAuthorization" (obtain_args id) obtain_kwargs st2)
      as [[g | e] st3] eqn:Ho; [| discriminate].
    intros H. right. exists st1, ag, st2, g, st3. repeat split; assumption.
Qed.

(** C2. Whenever the first status query for an action identifier answers
    "yes", the authorization step returns [True] at once: the run ends with
    that query, and no [ObtainAuthorization] call is among the events of
    the run. *)
Theorem auth_perms_short_circuit (id : string) (st st0 : state)
    (polkit : Interface) :
  _polkit w st = (Ok (OInterface polkit), st0) ->
  remote_call w (trace st0) polkit "IsProcessAuthorized" (status_args id) []
    = Reply (PStr "yes") ->
  auth_perms w pid id st =
    (Ok true,
     logged (EvCall polkit "IsProcessAuthorized" (status_args id) []
               (Reply (PStr "yes"))) st0) /\
  exists l, trace (auth_perms w pid id st).2 = l ++ trace st /\
            Forall (fun ev => is_obtain ev = false) l.
Proof.
  intros Hp Hr.
  assert (E : auth_perms w pid id st =
              (Ok true,
               logged (EvCall polkit "IsProcessAuthorized" (status_args id) []
                         (Reply (PStr "yes"))) st0)).
  { unfold auth_perms, bind. rewrite (check_perms_run id st st0 polkit _ Hp Hr).
    reflexivity. }
  split; [exact E |]. rewrite E. simpl.
  destruct (emits_polkit w (fun ev => is_obtain ev = false)) with (st := st)
    as [(l & El & Fl) _].
  { intros [] H; simpl in H; try contradiction; reflexivity. }
  rewrite Hp in El. simpl in El.
  exists (EvCall polkit "IsProcessAuthorized" (status_args id) []
            (Reply (PStr "yes")) :: l).
  split; [rewrite El; reflexivity |]. constructor; [reflexivity | exact Fl].
Qed.

Lemma emits_check_perms (Q : event -> Prop) (id : string) :
  (forall ev, is_resolution ev -> Q ev) ->
  (forall i r, Q (EvCall i "IsProcessAuthorized" (status_args id) [] r)) ->
  emits Q (check_perms w pid id).
Proof.
  intros HR HS. unfold check_perms.
  repeat first [ apply emits_polkit; exact HR | apply emits_call; exact HS
               | emits_step ].
Qed.

Lemma emits_auth_perms (Q : event -> Prop) (id : string) :
  (forall ev, is_resolution ev -> Q ev) ->
  (forall i r, Q (EvCall i "IsProcessAuthorized" (status_args id) [] r)) ->
  (forall i r, Q (EvCall i "ObtainAuthorization" (obtain_args id) obtain_kwargs r)) ->
  emits Q (auth_perms w pid id).
Proof.
  intros HR HS HO. unfold auth_perms.
  repeat first [ apply emits_check_perms; [exact HR | exact HS]
               | apply emits_authagent; exact HR
               | apply emits_call; exact HO
               | emits_step ].
Qed.

(** C1. When the first status query for an action identifier answers
    anything but "yes": once the agent is resolved, [ObtainAuthorization] is
    called on it; and whenever the authorization step returns, its events
    after the first query are exactly that request followed by one more
    status query, and the result is [True] iff this second query answers
    "yes", whatever the request returned. *)
Theorem auth_perms_recheck (id : string) (st st0 : state)
    (polkit : Interface) (res1 : pyval) :
  _polkit w st = (Ok (OInterface polkit), st0) ->
  remote_call w (trace st0) polkit "IsProcessAuthorized" (status_args id) []
    = Reply res1 ->
  res1 <> PStr "yes" ->
  let st1 :=
    logged (EvCall polkit "IsProcessAuthorized" (status_args id) []
              (Reply res1)) st0 in
  (forall authagent st2,
     _authagent w st1 = (Ok (OInterface authagent), st2) ->
     exists l,
       trace (auth_perms w pid id st).2 =
       l ++ EvCall authagent "ObtainAuthorization" (obtain_args id) obtain_kwargs
              (remote_call w (trace st2) authagent "ObtainAuthorization"
                 (obtain_args id) obtain_kwargs) :: trace st2) /\
  (forall b st',
     auth_perms w pid id st = (Ok b, st') ->
     exists l grant res2,
       trace st' = l ++ trace st1 /\
       calls_of l =
         [("IsProcessAuthorized", status_args id, Reply res2);
          ("ObtainAuthorization", obtain_args id, Reply grant)] /\
       (b = true <-> res2 = PStr "yes")).
Proof.
  intros Hp Hr Hno st1.
  assert (Hc : check_perms w pid id st = (Ok false, st1)).
  { rewrite (check_perms_run id st st0 polkit res1 Hp Hr).
    apply py_eq_str_false in Hno. rewrite Hno. reflexivity. }
  split.
  - intros ag st2 Ha. unfold auth_perms, bind at 1. rewrite Hc.
    unfold bind at 1. rewrite Ha. unfold bind.
    fold (obtain_args id). fold obtain_kwargs. rewrite call_run.
    destruct (remote_call w (trace st2) ag "ObtainAuthorization"
                (obtain_args id) obtain_kwargs) as [g | e] eqn:Hg.
    + match goal with
      | |- context [check_perms w pid id ?s] =>
          destruct (emits_check_perms (fun _ => True) id
                      (fun _ _ => I) (fun _ _ => I) s) as [(l & El & _) _]
      end.
      exists l. rewrite El. reflexivity.
    + exists []. reflexivity.
  - intros b st' H. apply auth_perms_inv in H as [[H _] | H].
    + rewrite Hc in H. discriminate.
    + destruct H as (st1' & ag & st2 & g & st3 & Hc' & Ha & Ho & Hc2).
      rewrite Hc in Hc'. injection Hc' as <-.
      apply call_inv in Ho as (i & -> & Hg & ->).
      apply check_perms_inv in Hc2 as (pk' & st4 & res2 & Hp' & Hr' & -> & ->).
      destruct (accessor_trace _ _ _ _ (emits_authagent w _ (fun _ H => H)) Ha)
        as (la & Ela & Cla).
      destruct (accessor_trace _ _ _ _ (emits_polkit w _ (fun _ H => H)) Hp')
        as (lp & Elp & Clp).
      exists (EvCall pk' "IsProcessAuthorized" (status_args id) [] (Reply res2)
                :: lp ++
              EvCall i "ObtainAuthorization" (obtain_args id) obtain_kwargs
                (Reply g) :: la), g, res2.
      split; [| split].
      * simpl. rewrite Elp. simpl. rewrite Ela.
        rewrite <- app_assoc. reflexivity.
      * simpl. rewrite calls_of_app, Clp. simpl. rewrite Cla. reflexivity.
      * apply py_eq_str_true.
Qed.

End Authorization.

(** ** The operations *)

(** An event is compatible with an authorization of [id] when, if it is a
    status query or an authorization request, its first argument is [id]. *)
Definition auth_event_for (id : string) (ev : event) : Prop :=
  match ev with
  | EvCall _ member args _ _ =>
      member = "IsProcessAuthorized" \/ member = "ObtainAuthorization" ->
      exists rest, args = PStr id :: rest
  | _ => True
  end.

Section Operations.

Variable w : World.
Variable pid : Z.

Lemma emits_count_sessions (Q : event -> Prop) (seats : list pyval) (cnt : Z) :
  (forall ev, is_resolution ev -> Q ev) ->
  (forall i r, Q (EvCall i "GetSessions" [] [] r)) ->
  emits Q (count_sessions w seats cnt).
Proof.
  intros HR HS. revert cnt.
  induction seats as [| sid rest IH]; intros cnt; simpl; [apply emits_ret |].
  unfold SystemBus.
  repeat first [ apply IH
               | apply emits_dbus_bus; intros; apply HR; exact I
               | apply emits_get_object; intros; apply HR; exact I
               | apply emits_dbus_Interface; intros; apply HR; exact I
               | apply emits_call; exact HS
               | emits_step ].
Qed.

Lemma emits_get_sessions (Q : event -> Prop) :
  (forall ev, is_resolution ev -> Q ev) ->
  (forall i r, Q (EvCall i "GetSeats" [] [] r)) ->
  (forall i r, Q (EvCall i "GetSessions" [] [] r)) ->
  emits Q (get_sessions w).
Proof.
  intros HR HG HS. unfold get_sessions.
  repeat first [ apply emits_consolekit; exact HR
               | apply emits_call; exact HG
               | apply emits_count_sessions; [exact HR | exact HS]
               | emits_step ].
Qed.

Lemma py_len_nonneg (v : pyval) (st st' : state) (n : Z) :
  py_len v st = (Ok n, st') -> 0 <= n.
Proof. destruct v; simpl; intros [= <- _]; lia. Qed.

Lemma count_sessions_nonneg (seats : list pyval) (cnt n : Z) (st st' : state) :
  0 <= cnt -> count_sessions w seats cnt st = (Ok n, st') -> 0 <= n.
Proof.
  revert cnt st. induction seats as [| sid rest IH]; intros cnt st Hc; simpl.
  - intros [= <- _]. exact Hc.
  - unfold bind at 1. destruct (SystemBus w st) as [[b | e] s1]; [| discriminate].
    unfold bind at 1. destruct (get_object w b _ s1) as [[o | e] s2]; [| discriminate].
    unfold bind at 1. destruct (dbus_Interface o _ s2) as [[i | e] s3]; [| discriminate].
    unfold bind at 1. destruct (call w i _ _ _ s3) as [[v | e] s4]; [| discriminate].
    unfold bind at 1. destruct (py_len v s4) as [[k | e] s5] eqn:Hk; [| discriminate].
    apply py_len_nonneg in Hk. apply IH. lia.
Qed.

Lemma get_sessions_nonneg (st st' : state) (n : Z) :
  get_sessions w st = (Ok n, st') -> 0 <= n.
Proof.
  unfold get_sessions. unfold bind at 1.
  destruct (_consolekit w st) as [[ck | e] s1]; [| discriminate].
  unfold bind at 1. destruct (call w ck _ _ _ s1) as [[v | e] s2]; [| discriminate].
  unfold bind at 1. destruct (py_iter v s2) as [[l | e] s3]; [| discriminate].
  apply count_sessions_nonneg. lia.
Qed.

(** The shape shared by the four HAL branches: authorize [id], then call
    [member] on the HAL power-management interface. *)
Definition hal_gated (id member : string) : M pyval :=
  do authorised <- auth_perms w pid id;
  if negb authorised then ret (PBool false)
  else
    do halpm <- _halpm w;
    call w halpm member [] [].

Lemma suspend_HAL (st : state) :
  suspend w pid HAL st =
  hal_gated "org.freedesktop.hal.power-management.suspend" "Suspend" st.
Proof. reflexivity. Qed.

Lemma hibernate_HAL (st : state) :
  hibernate w pid HAL st =
  hal_gated "org.freedesktop.hal.power-management.hibernate" "Hibernate" st.
Proof. reflexivity. Qed.

Lemma restart_HAL (st st1 : state) (cnt : Z) :
  get_sessions w st = (Ok cnt, st1) ->
  restart w pid HAL st =
  hal_gated (if Z.gtb cnt 1
             then "org.freedesktop.hal.power-management.reboot-multiple-sessions"
             else "org.freedesktop.hal.power-management.reboot") "Reboot" st1.
Proof.
  intros H. unfold restart. simpl. unfold bind at 1. rewrite H.
  destruct (Z.gtb cnt 1); reflexivity.
Qed.

Lemma shutdown_HAL (st st1 : state) (cnt : Z) :
  get_sessions w st = (Ok cnt, st1) ->
  shutdown w pid HAL st =
  hal_gated (if Z.gtb cnt 1
             then "org.freedesktop.hal.power-management.shutdown-multiple-sessions"
             else "org.freedesktop.hal.power-management.shutdown") "Shutdown" st1.
Proof.
  intros H. unfold shutdown. simpl. unfold bind at 1. rewrite H.
  destruct (Z.gtb cnt 1); reflexivity.
Qed.

Lemma restart_HAL_raise (st st1 : state) (e : exn) :
  get_sessions w st = (Raise e, st1) -> restart w pid HAL st = (Raise e, st1).
Proof. intros H. unfold restart. simpl. unfold bind at 1. rewrite H. reflexivity. Qed.

Lemma shutdown_HAL_raise (st st1 : state) (e : exn) :
  get_sessions w st = (Raise e, st1) -> shutdown w pid HAL st = (Raise e, st1).
Proof. intros H. unfold shutdown. simpl. unfold bind at 1. rewrite H. reflexivity. Qed.

Lemma emits_hal_gated (Q : event -> Prop) (id member : string) :
  (forall ev, is_resolution ev -> Q ev) ->
  (forall i r, Q (EvCall i "IsProcessAuthorized" (status_args pid id) [] r)) ->
  (forall i r, Q (EvCall i "ObtainAuthorization" (obtain_args pid id)
                    obtain_kwargs r)) ->
  (forall i r, Q (EvCall i member [] [] r)) ->
  emits Q (hal_gated id member).
Proof.
  intros HR HS HO HM. unfold hal_gated.
  repeat first [ apply emits_auth_perms; [exact HR | exact HS | exact HO]
               | apply emits_halpm; exact HR
               | apply emits_call; exact HM
               | emits_step ].
Qed.

Lemma hal_gated_denied (id member : string) (st st1 : state) :
  auth_perms w pid id st = (Ok false, st1) ->
  hal_gated id member st = (Ok (PBool false), st1).
Proof. intros H. unfold hal_gated, bind. rewrite H. reflexivity. Qed.

Lemma bind_after {A B} (m : M A) (k : A -> M B) (st s1 : state) (r : result A) :
  m st = (r, s1) -> (forall a, emits (fun _ => True) (k a)) ->
  exists l, trace (bind m k st).2 = l ++ trace s1.
Proof.
  intros Hm Hk. unfold bind. rewrite Hm. destruct r as [a | e].
  - destruct (Hk a s1) as [(l & El & _) _]. exists l. exact El.
  - exists []. reflexivity.
Qed.

Lemma check_perms_first_query (id : string) (st st0 : state)
    (polkit : Interface) :
  _polkit w st = (Ok (OInterface polkit), st0) ->
  exists r,
    check_perms w pid id st =
    (r, logged (EvCall polkit "IsProcessAuthorized" (status_args pid id) []
                  (remote_call w (trace st0) polkit "IsProcessAuthorized"
                     (status_args pid id) [])) st0).
Proof.
  intros Hp. unfold check_perms, bind at 1. rewrite Hp.
  unfold bind. fold (status_args pid id). rewrite call_run.
  destruct (remote_call w (trace st0) polkit "IsProcessAuthorized"
              (status_args pid id) []) as [res | e].
  - destruct (py_eq_str res "yes"); eexists; reflexivity.
  - eexists; reflexivity.
Qed.

Lemma hal_gated_first_query (id member : string) (st st0 : state)
    (polkit : Interface) :
  _polkit w st = (Ok (OInterface polkit), st0) ->
  exists l,
    trace (hal_gated id member st).2 =
    l ++ EvCall polkit "IsProcessAuthorized" (status_args pid id) []
           (remote_call w (trace st0) polkit "IsProcessAuthorized"
              (status_args pid id) []) :: trace st0.
Proof.
  intros Hp. destruct (check_perms_first_query id st st0 polkit Hp) as [r Hc].
  assert (Ha : exists l, trace (auth_perms w pid id st).2 =
                         l ++ trace (logged
                           (EvCall polkit "IsProcessAuthorized"
                              (status_args pid id) []
                              (remote_call w (trace st0) polkit
                                 "IsProcessAuthorized" (status_args pid id) []))
                           st0)).
  { unfold auth_perms. eapply bind_after; [exact Hc |]. intros a.
    repeat first [ apply emits_check_perms; intros; exact I
                 | apply emits_authagent; intros; exact I
                 | apply emits_call; intros; exact I
                 | emits_step ]. }
  destruct Ha as [l1 E1].
  destruct (auth_perms w pid id st) as [r2 s2] eqn:Hauth. simpl in E1.
  assert (Hg : exists l, trace (hal_gated id member st).2 = l ++ trace s2).
  { unfold hal_gated. eapply bind_after; [exact Hauth |]. intros a.
    repeat first [ apply emits_halpm; intros; exact I
                 | apply emits_call; intros; exact I
                 | emits_step ]. }
  destruct Hg as [l2 E2]. exists (l2 ++ l1).
  rewrite E2, E1. simpl. rewrite <- app_assoc. reflexivity.
Qed.

(** *** Session count and the action identifier *)

(** After the sessions were counted (state [st1]), the run of [op] from
    [st] authorizes [id]: it continues from [st1], every status query and
    authorization request of the whole run names [id], and once PolicyKit
    is resolved the status query for [id] is issued. *)
Definition selects (id : string) (op : M pyval) (st st1 : state) : Prop :=
  (exists l l0,
     trace st1 = l0 ++ trace st /\
     trace (op st).2 = l ++ trace st1 /\
     Forall (auth_event_for id) (l ++ l0)) /\
  (forall polkit st2,
     _polkit w st1 = (Ok (OInterface polkit), st2) ->
     exists l,
       trace (op st).2 =
       l ++ EvCall polkit "IsProcessAuthorized" (status_args pid id) []
              (remote_call w (trace st2) polkit "IsProcessAuthorized"
                 (status_args pid id) []) :: trace st2).

Lemma auth_event_for_other (id member : string) (i : Interface)
    (args : list pyval) (kwargs : list (string * pyval)) (r : reply) :
  call_named ["IsProcessAuthorized"; "ObtainAuthorization"]
    (EvCall i member args kwargs r) = false ->
  auth_event_for id (EvCall i member args kwargs r).
Proof.
  simpl. intros H [-> | ->]; discriminate.
Qed.

Lemma selects_hal_gated (id member : string) (op : M pyval) (st st1 : state)
    (cnt : Z) :
  String.eqb member "IsProcessAuthorized" = false ->
  String.eqb member "ObtainAuthorization" = false ->
  get_sessions w st = (Ok cnt, st1) ->
  op st = hal_gated id member st1 ->
  selects id op st st1.
Proof.
  intros N1 N2 Hs Hop. split.
  - destruct (emits_get_sessions (auth_event_for id)) with (st := st)
      as [(l0 & E0 & F0) _].
    { intros [] H; simpl in H; try contradiction; exact I. }
    { intros. apply auth_event_for_other. reflexivity. }
    { intros. apply auth_event_for_other. reflexivity. }
    rewrite Hs in E0. simpl in E0.
    destruct (emits_hal_gated (auth_event_for id) id member) with (st := st1)
      as [(l & E & F) _].
    { intros [] H; simpl in H; try contradiction; exact I. }
    { intros i r _. eexists. reflexivity. }
    { intros i r _. eexists. reflexivity. }
    { intros. apply auth_event_for_other. simpl. rewrite N1, N2. reflexivity. }
    exists l, l0. rewrite Hop. repeat split; auto.
    apply Forall_app. split; assumption.
  - intros polkit st2 Hp. rewrite Hop.
    apply hal_gated_first_query, Hp.
Qed.

(** C3. Under the HAL backend [restart] and [shutdown] count the sessions
    first.  With a count above 1 the authorization that follows is for the
    multiple-sessions identifier, with a count of 1 or 0 (the count is
    never negative) for the plain identifier. *)
Theorem session_count_selects_identifier (st st1 : state) (cnt : Z) :
  get_sessions w st = (Ok cnt, st1) ->
  0 <= cnt /\
  (1 < cnt ->
   selects "org.freedesktop.hal.power-management.reboot-multiple-sessions"
     (restart w pid HAL) st st1 /\
   selects "org.freedesktop.hal.power-management.shutdown-multiple-sessions"
     (shutdown w pid HAL) st st1) /\
  (cnt <= 1 ->
   selects "org.freedesktop.hal.power-management.reboot"
     (restart w pid HAL) st st1 /\
   selects "org.freedesktop.hal.power-management.shutdown"
     (shutdown w pid HAL) st st1).
Proof.
  intros Hs. split; [eapply get_sessions_nonneg, Hs |].
  pose proof (restart_HAL st st1 cnt Hs) as Hr.
  pose proof (shutdown_HAL st st1 cnt Hs) as Hd.
  split; intros Hc.
  - assert (G : Z.gtb cnt 1 = true) by (apply Z.gtb_lt; lia).
    rewrite G in Hr, Hd.
    split; (eapply selects_hal_gated;
            [| | exact Hs | first [exact Hr | exact Hd]]); reflexivity.
  - assert (G : Z.gtb cnt 1 = false).
    { destruct (Z.gtb cnt 1) eqn:G; [apply Z.gtb_lt in G; lia | reflexivity]. }
    rewrite G in Hr, Hd.
    split; (eapply selects_hal_gated;
            [| | exact Hs | first [exact Hr | exact Hd]]); reflexivity.
Qed.

(** *** The authorization gate *)

Definition no_power_call (st st' : state) : Prop :=
  exists l, trace st' = l ++ trace st /\
            Forall (fun ev => is_power_call ev = false) l.

(** If the run of [op] from [st] contains a power-management call at all,
    then it is the call of [member], it is the last event of the run, it
    is the only such call, and the authorization step had returned [True]
    before it. *)
Definition only_after_auth (member : string) (op : M pyval) (st : state) : Prop :=
  forall l,
    trace (op st).2 = l ++ trace st ->
    Exists (fun ev => is_power_call ev = true) l ->
    exists id sa sb i r l1 l2,
      auth_perms w pid id sa = (Ok true, sb) /\
      trace sb = l2 ++ trace st /\
      l = EvCall i member [] [] r :: l1 ++ l2 /\
      Forall (fun ev => is_power_call ev = false) (l1 ++ l2).

Lemma Forall_Exists_power (l : list event) :
  Forall (fun ev => is_power_call ev = false) l ->
  Exists (fun ev => is_power_call ev = true) l -> False.
Proof.
  intros F E. apply Exists_exists in E as (ev & Hin & Ht).
  rewrite Forall_forall in F. specialize (F ev Hin). congruence.
Qed.

Lemma resolution_not_power (ev : event) :
  is_resolution ev -> is_power_call ev = false.
Proof. destruct ev; simpl; try contradiction; reflexivity. Qed.

Lemma emits_auth_perms_no_power (id : string) :
  emits (fun ev => is_power_call ev = false) (auth_perms w pid id).
Proof.
  apply emits_auth_perms; [apply resolution_not_power | reflexivity | reflexivity].
Qed.

Lemma emits_get_sessions_no_power :
  emits (fun ev => is_power_call ev = false) (get_sessions w).
Proof.
  apply emits_get_sessions; [apply resolution_not_power | reflexivity | reflexivity].
Qed.

Lemma hal_gated_only_after (id member : string) (st st1 : state)
    (l0 l : list event) :
  trace st1 = l0 ++ trace st ->
  Forall (fun ev => is_power_call ev = false) l0 ->
  trace (hal_gated id member st1).2 = l ++ trace st ->
  Exists (fun ev => is_power_call ev = true) l ->
  exists sb i r l1 l2,
    auth_perms w pid id st1 = (Ok true, sb) /\
    trace sb = l2 ++ trace st /\
    l = EvCall i member [] [] r :: l1 ++ l2 /\
    Forall (fun ev => is_power_call ev = false) (l1 ++ l2).
Proof.
  intros E0 F0 El Ex. unfold hal_gated, bind at 1 in El.
  destruct (emits_auth_perms_no_power id st1) as [(la & Ea & Fa) _].
  destruct (auth_perms w pid id st1) as [[[|] | e] s2] eqn:Hauth;
    simpl in Ea, El.
  - unfold bind at 1 in El.
    destruct (emits_halpm w _ resolution_not_power s2) as [(lh & Eh & Fh) _].
    destruct (_halpm w s2) as [[[b | i] | e] s3]; simpl in Eh, El.
    + exfalso. rewrite Eh, Ea, E0, !app_assoc in El.
      apply app_inv_tail in El. subst l.
      eapply Forall_Exists_power; [| exact Ex].
      repeat (apply Forall_app; split); assumption.
    + rewrite call_run in El. simpl in El.
      set (r := remote_call w (trace s3) i member [] []) in El. clearbody r.
      rewrite Eh, Ea, E0 in El.
      exists s2, i, r, lh, (la ++ l0).
      split; [reflexivity |]. split; [rewrite Ea, E0, app_assoc; reflexivity |].
      split.
      * apply app_inv_tail with (l := trace st). rewrite <- El.
        simpl. rewrite <- !app_assoc. reflexivity.
      * repeat (apply Forall_app; split); assumption.
    + exfalso. rewrite Eh, Ea, E0, !app_assoc in El.
      apply app_inv_tail in El. subst l.
      eapply Forall_Exists_power; [| exact Ex].
      repeat (apply Forall_app; split); assumption.
  - exfalso. rewrite Ea, E0, app_assoc in El.
    apply app_inv_tail in El. subst l.
    eapply Forall_Exists_power; [| exact Ex].
    apply Forall_app; split; assumption.
  - exfalso. rewrite Ea, E0, app_assoc in El.
    apply app_inv_tail in El. subst l.
    eapply Forall_Exists_power; [| exact Ex].
    apply Forall_app; split; assumption.
Qed.

Lemma no_power_after_auth (id : string) (st st1 : state) (r : result bool) :
  auth_perms w pid id st = (r, st1) -> no_power_call st st1.
Proof.
  intros H. destruct (emits_auth_perms_no_power id st) as [(l & E & F) _].
  rewrite H in E. exists l. auto.
Qed.

Lemma no_power_after_count (st st1 : state) (r : result Z) :
  get_sessions w st = (r, st1) -> no_power_call st st1.
Proof.
  intros H. destruct (emits_get_sessions_no_power st) as [(l & E & F) _].
  rewrite H in E. exists l. auto.
Qed.

Lemma no_power_call_trans (st st1 st2 : state) :
  no_power_call st st1 -> no_power_call st1 st2 -> no_power_call st st2.
Proof.
  intros (l1 & E1 & F1) (l2 & E2 & F2). exists (l2 ++ l1).
  rewrite E2, E1, app_assoc. split; [reflexivity |].
  apply Forall_app. split; assumption.
Qed.

Lemma counted_only_after (member : string) (op : M pyval)
    (ids : Z -> string) (st : state) :
  (forall cnt st1, get_sessions w st = (Ok cnt, st1) ->
                   op st = hal_gated (ids cnt) member st1) ->
  (forall e st1, get_sessions w st = (Raise e, st1) -> op st = (Raise e, st1)) ->
  only_after_auth member op st.
Proof.
  intros Hok Hraise l El Ex.
  destruct (get_sessions w st) as [[cnt | e] st1] eqn:Hs.
  - destruct (no_power_after_count _ _ _ Hs) as (l0 & E0 & F0).
    rewrite (Hok cnt st1 eq_refl) in El.
    destruct (hal_gated_only_after _ _ _ _ _ _ E0 F0 El Ex)
      as (sb & i & r & l1 & l2 & H).
    exists (ids cnt), st1, sb, i, r, l1, l2. exact H.
  - exfalso. destruct (no_power_after_count _ _ _ Hs) as (l0 & E0 & F0).
    rewrite (Hraise e st1 eq_refl) in El. simpl in El. rewrite E0 in El.
    apply app_inv_tail in El. subst l. eapply Forall_Exists_power; eassumption.
Qed.

Lemma direct_only_after (id member : string) (op : M pyval) (st : state) :
  op st = hal_gated id member st -> only_after_auth member op st.
Proof.
  intros Hop l El Ex. rewrite Hop in El.
  destruct (hal_gated_only_after id member st st [] l eq_refl
              (List.Forall_nil _) El Ex) as (sb & i & r & l1 & l2 & H).
  exists id, st, sb, i, r, l1, l2. exact H.
Qed.

(** C4. Under the HAL backend, when the authorization step returns [False],
    [suspend], [hibernate], [restart] and [shutdown] return [False] in the
    very state the authorization left, and no power-management call is
    among the events of the run.  In every run, a power-management call is
    made only once the authorization step has returned [True]. *)
Theorem denied_means_no_power_call (st : state) :
  (forall st1,
     auth_perms w pid "org.freedesktop.hal.power-management.suspend" st
       = (Ok false, st1) ->
     suspend w pid HAL st = (Ok (PBool false), st1) /\ no_power_call st st1) /\
  (forall st1,
     auth_perms w pid "org.freedesktop.hal.power-management.hibernate" st
       = (Ok false, st1) ->
     hibernate w pid HAL st = (Ok (PBool false), st1) /\ no_power_call st st1) /\
  (forall cnt st1 st2,
     get_sessions w st = (Ok cnt, st1) ->
     auth_perms w pid
       (if Z.gtb cnt 1
        then "org.freedesktop.hal.power-management.reboot-multiple-sessions"
        else "org.freedesktop.hal.power-management.reboot") st1
       = (Ok false, st2) ->
     restart w pid HAL st = (Ok (PBool false), st2) /\ no_power_call st st2) /\
  (forall cnt st1 st2,
     get_sessions w st = (Ok cnt, st1) ->
     auth_perms w pid
       (if Z.gtb cnt 1
        then "org.freedesktop.hal.power-management.shutdown-multiple-sessions"
        else "org.freedesktop.hal.power-management.shutdown") st1
       = (Ok false, st2) ->
     shutdown w pid HAL st = (Ok (PBool false), st2) /\ no_power_call st st2) /\
  only_after_auth "Suspend" (suspend w pid HAL) st /\
  only_after_auth "Hibernate" (hibernate w pid HAL) st /\
  only_after_auth "Reboot" (restart w pid HAL) st /\
  only_after_auth "Shutdown" (shutdown w pid HAL) st.
Proof.
  repeat split.
  - rewrite suspend_HAL. apply hal_gated_denied, H.
  - eapply no_power_after_auth, H.
  - rewrite hibernate_HAL. apply hal_gated_denied, H.
  - eapply no_power_after_auth, H.
  - rewrite (restart_HAL _ _ _ H). apply hal_gated_denied, H0.
  - eapply no_power_call_trans;
      [eapply no_power_after_count, H | eapply no_power_after_auth, H0].
  - rewrite (shutdown_HAL _ _ _ H). apply hal_gated_denied, H0.
  - eapply no_power_call_trans;
      [eapply no_power_after_count, H | eapply no_power_after_auth, H0].
  - eapply direct_only_after. apply suspend_HAL.
  - eapply direct_only_after. apply hibernate_HAL.
  - eapply counted_only_after with
      (ids := fun cnt =>
         if Z.gtb cnt 1
         then "org.freedesktop.hal.power-management.reboot-multiple-sessions"
         else "org.freedesktop.hal.power-management.reboot").
    + intros cnt st1 Hs. apply (restart_HAL _ _ _ Hs).
    + intros e st1 Hs. apply (restart_HAL_raise _ _ _ Hs).
  - eapply counted_only_after with
      (ids := fun cnt =>
         if Z.gtb cnt 1
         then "org.freedesktop.hal.power-management.shutdown-multiple-sessions"
         else "org.freedesktop.hal.power-management.shutdown").
    + intros cnt st1 Hs. apply (shutdown_HAL _ _ _ Hs).
    + intros e st1 Hs. apply (shutdown_HAL_raise _ _ _ Hs).
Qed.

(** *** The ConsoleKit backend *)

Definition result_of_reply (r : reply) : result pyval :=
  match r with
  | Reply v => Ok v
  | Fault e => Raise (DBusException e)
  end.

(** No status query, no authorization request, no seat or session
    enumeration. *)
Definition ungated (ev : event) : Prop :=
  is_status_query ev = false /\ is_obtain ev = false /\
  is_session_call ev = false.

(** The run of [op] from [st] is: resolve the ConsoleKit manager, call
    [member] on it, return what the call returns. *)
Definition passes_through (member : string) (op : M pyval) (st : state) : Prop :=
  (exists l, trace (op st).2 = l ++ trace st /\ Forall ungated l) /\
  (forall consolekit st1,
     _consolekit w st = (Ok (OInterface consolekit), st1) ->
     op st =
     (result_of_reply (remote_call w (trace st1) consolekit member [] []),
      logged (EvCall consolekit member [] []
                (remote_call w (trace st1) consolekit member [] [])) st1)) /\
  (forall e st1,
     _consolekit w st = (Raise e, st1) -> op st = (Raise e, st1)).

Lemma resolution_ungated (ev : event) : is_resolution ev -> ungated ev.
Proof. destruct ev; simpl; try contradiction; repeat split. Qed.

Lemma consolekit_call_passes_through (member : string) (st : state) :
  existsb (String.eqb member)
    ["IsProcessAuthorized"; "ObtainAuthorization"; "GetSeats"; "GetSessions"]
    = false ->
  passes_through member
    (do consolekit <- _consolekit w; call w consolekit member [] []) st.
Proof.
  intros Hm. split; [| split].
  - assert (E : emits ungated
                  (do consolekit <- _consolekit w; call w consolekit member [] [])).
    { apply emits_bind; [apply emits_consolekit, resolution_ungated |].
      intros ck. apply emits_call. intros i r. unfold ungated.
      simpl in Hm |- *.
      destruct (String.eqb member "IsProcessAuthorized");
        destruct (String.eqb member "ObtainAuthorization");
        destruct (String.eqb member "GetSeats");
        destruct (String.eqb member "GetSessions");
        simpl in Hm |- *; try discriminate; repeat split. }
    destruct (E st) as [H _]. exact H.
  - intros ck st1 Hc. unfold bind. rewrite Hc, call_run.
    destruct (remote_call w (trace st1) ck member [] []); reflexivity.
  - intros e st1 Hc. unfold bind. rewrite Hc. reflexivity.
Qed.

(** C7. Under the ConsoleKit backend [restart] and [shutdown] make no
    status query, no authorization request and no seat or session
    enumeration: they resolve the ConsoleKit manager, call [Restart]
    (resp. [Stop]) on it and return what that call returns. *)
Theorem consolekit_restart_shutdown_direct (st : state) :
  passes_through "Restart" (restart w pid ConsoleKit) st /\
  passes_through "Stop" (shutdown w pid ConsoleKit) st.
Proof.
  split.
  - apply (consolekit_call_passes_through "Restart" st). reflexivity.
  - apply (consolekit_call_passes_through "Stop" st). reflexivity.
Qed.

(** *** Unrecognised backends and actions *)

(** C10. With a backend other than "HAL" and "ConsoleKit" ([None]
    included) [check_ability] returns [True] for every action, although
    [check] returns [False] and [restart], [shutdown], [suspend] and
    [hibernate] return [False]; all of them leave the state as it was, so
    nothing is resolved or called.  With any backend, [check_ability]
    returns [True] in the same way for every action other than "suspend",
    "hibernate" and "safesuspend". *)
Theorem check_ability_falls_through (self : DbusController) (action : pyval)
    (st : state) :
  (backend self <> PStr "HAL" -> backend self <> PStr "ConsoleKit" ->
   check_ability w self action st = (Ok (PBool true), st) /\
   check w self st = (Ok false, st) /\
   restart w pid self st = (Ok (PBool false), st) /\
   shutdown w pid self st = (Ok (PBool false), st) /\
   suspend w pid self st = (Ok (PBool false), st) /\
   hibernate w pid self st = (Ok (PBool false), st)) /\
  (action <> PStr "suspend" -> action <> PStr "hibernate" ->
   action <> PStr "safesuspend" ->
   check_ability w self action st = (Ok (PBool true), st)).
Proof.
  split.
  - intros H1 H2. apply py_eq_str_false in H1, H2.
    unfold check_ability, check, restart, shutdown, suspend, hibernate.
    rewrite H1, H2. repeat split.
  - intros H1 H2 H3. apply py_eq_str_false in H1, H2, H3.
    unfold check_ability. rewrite H1, H2, H3.
    destruct (py_eq_str (backend self) "HAL");
      [| destruct (py_eq_str (backend self) "ConsoleKit")]; reflexivity.
Qed.

End Operations.

(** C9 (as amended). [safesuspend] does nothing: it leaves the state as it
    was, so it makes no remote call and asks for no authorization, and it
    returns [None]. *)
Theorem safesuspend_returns_None (self : DbusController) (st : state) :
  safesuspend self st = (Ok PNone, st).
Proof. reflexivity. Qed.

(** C9 as stated fails: the value [safesuspend] returns is not a bool. *)
Lemma safesuspend_not_bool :
  ~ (exists b : bool, (safesuspend HAL init_state).1 = Ok (PBool b)).
Proof. intros [b H]. discriminate H. Qed.

(** ** What a property access does *)

Section Access.

Variable w : World.

(** The property bodies with the [hasattr] test answered [False]: build the
    object, store it under the mangled name, return it. *)
Definition uncached_bus (b : bus) (key : string) : M pyobj :=
  do v <- dbus_bus w b;
  setattr key v;;
  ret v.

Definition uncached (b : bus) (buskey key : string) (args : list pyval)
    (iface : string) : M pyobj :=
  do conn <- uncached_bus b buskey;
  do obj <- get_object w conn args;
  do v <- dbus_Interface obj iface;
  setattr key v;;
  ret v.

Lemma hasattr_wf (name : string) (st : state) :
  wf st -> String.prefix "__" name = true -> hasattr name st = (Ok false, st).
Proof.
  intros W Hn. unfold hasattr. rewrite (W name Hn).
  rewrite bool_decide_eq_false_2; [reflexivity | apply is_Some_None].
Qed.

Lemma wf_setattr (k : string) (v : pyobj) (st : state) :
  String.prefix "__" k = false -> wf st -> wf (setattr k v st).2.
Proof.
  intros Hk W. destruct (emits_setattr (fun _ => True) k v Hk st) as [_ H]. auto.
Qed.

Lemma getattr_setattr (k : string) (v : pyobj) (st : state) :
  getattr k (setattr k v st).2 = (Ok v, (setattr k v st).2).
Proof. unfold getattr. simpl. rewrite lookup_insert_eq. reflexivity. Qed.

Lemma lazy_wf (name : string) (fill : M unit) (st : state) :
  wf st -> String.prefix "__" name = true ->
  (do has <- hasattr name;
   (if negb has then fill else ret tt);;
   getattr (mangle name)) st =
  (fill;; getattr (mangle name)) st.
Proof.
  intros W Hn. unfold bind at 1. rewrite (hasattr_wf name st W Hn). reflexivity.
Qed.

Ltac finish_access :=
  unfold setattr, ret;
  repeat match goal with
         | |- context [match ?x with _ => _ end] =>
             lazymatch x with
             | context [match _ with _ => _ end] => fail
             | _ => destruct x; cbv beta iota
             end
         end;
  first [ reflexivity | apply getattr_setattr ].

Lemma sysbus_wf (st : state) :
  wf st -> _sysbus w st = uncached_bus System "_DbusController__sysbus" st.
Proof.
  intros W. unfold _sysbus. rewrite lazy_wf by (assumption || reflexivity).
  unfold uncached_bus, SystemBus, bind. finish_access.
Qed.

Lemma sessbus_wf (st : state) :
  wf st -> _sessbus w st = uncached_bus Session "_DbusController__sessbus" st.
Proof.
  intros W. unfold _sessbus. rewrite lazy_wf by (assumption || reflexivity).
  unfold uncached_bus, SessionBus, bind. finish_access.
Qed.

Ltac interface_wf bus_wf :=
  let W := fresh "W" in
  intros W;
  rewrite lazy_wf by (assumption || reflexivity);
  unfold uncached, bind; rewrite (bus_wf _ W);
  finish_access.

Lemma upower_wf (st : state) :
  wf st ->
  _upower w st =
  uncached System "_DbusController__sysbus" "_DbusController__upower"
    [PStr "org.freedesktop.UPower"; PStr "/org/freedesktop/UPower"]
    "org.freedesktop.UPower" st.
Proof. unfold _upower. interface_wf sysbus_wf. Qed.

Lemma polkit_wf (st : state) :
  wf st ->
  _polkit w st =
  uncached System "_DbusController__sysbus" "_DbusController__polkit"
    [PStr "org.freedesktop.PolicyKit"; PStr "/"]
    "org.freedesktop.PolicyKit" st.
Proof. unfold _polkit. interface_wf sysbus_wf. Qed.

Lemma consolekit_wf (st : state) :
  wf st ->
  _consolekit w st =
  uncached System "_DbusController__sysbus" "_DbusController__consolekit"
    [PStr "org.freedesktop.ConsoleKit"; PStr "/org/freedesktop/ConsoleKit/Manager"]
    "org.freedesktop.ConsoleKit.Manager" st.
Proof. unfold _consolekit. interface_wf sysbus_wf. Qed.

Lemma halpm_wf (st : state) :
  wf st ->
  _halpm w st =
  uncached System "_DbusController__sysbus" "_DbusController__halpm"
    [PStr "org.freedesktop.Hal"; PStr "/org/freedesktop/Hal/devices/computer"]
    "org.freedesktop.Hal.Device.SystemPowerManagement" st.
Proof. unfold _halpm. interface_wf sysbus_wf. Qed.

Lemma authagent_wf (st : state) :
  wf st ->
  _authagent w st =
  uncached Session "_DbusController__sessbus" "_DbusController__authagent"
    [PStr "org.freedesktop.PolicyKit.AuthenticationAgent"; PStr "/";
     PStr "org.gnome.PolicyKit.AuthorizationManager.SingleInstance"]
    "org.freedesktop.PolicyKit.AuthenticationAgent" st.
Proof. unfold _authagent. interface_wf sessbus_wf. Qed.

End Access.

(** ** Availability *)

(** A bus connection or an object resolution that failed. *)
Definition failed (ev : event) : bool :=
  match ev with
  | EvBus _ (Some _) | EvGetObject _ _ (Some _) => true
  | _ => false
  end.

Definition hal_endpoint : list pyval :=
  [PStr "org.freedesktop.Hal"; PStr "/org/freedesktop/Hal/devices/computer"].
Definition consolekit_endpoint : list pyval :=
  [PStr "org.freedesktop.ConsoleKit"; PStr "/org/freedesktop/ConsoleKit/Manager"].
Definition upower_endpoint : list pyval :=
  [PStr "org.freedesktop.UPower"; PStr "/org/freedesktop/UPower"].

Section Availability.

Variable w : World.

(** One probe of [check]: [self._sysbus.get_object (...)]. *)
Definition probe (args : list pyval) : M ProxyObject :=
  do sysbus <- _sysbus w;
  get_object w sysbus args.

(** What the environment answers to one probe made at history [h]: the
    system bus connects, and [get_object (endpoint)] on it then succeeds. *)
Definition endpoint_resolves (h : list event) (endpoint : list pyval) : bool :=
  match bus_connect w h System with
  | Some _ => false
  | None =>
      match bus_get_object w (EvBus System None :: h) System endpoint with
      | Some _ => false
      | None => true
      end
  end.

(** The endpoints the backend of [self] requires all resolve, asked in the
    order [check] asks them from history [h]: the HAL computer object under
    "HAL"; the ConsoleKit manager and then, after that successful probe,
    UPower under "ConsoleKit"; no backend other than these two has any. *)
Definition required_endpoints_resolve (self : DbusController)
    (h : list event) : bool :=
  if py_eq_str (backend self) "HAL" then endpoint_resolves h hal_endpoint
  else if py_eq_str (backend self) "ConsoleKit" then
    endpoint_resolves h consolekit_endpoint &&
    endpoint_resolves
      (EvGetObject System consolekit_endpoint None :: EvBus System None :: h)
      upower_endpoint
  else false.

Lemma probe_cases (args : list pyval) (st : state) :
  wf st ->
  (exists o s1,
     probe args st = (Ok o, s1) /\ wf s1 /\
     trace s1 = [EvGetObject System args None; EvBus System None] ++ trace st /\
     endpoint_resolves (trace st) args = true) \/
  (exists e s1,
     probe args st = (Raise (DBusException e), s1) /\
     endpoint_resolves (trace st) args = false).
Proof.
  intros W. unfold probe, endpoint_resolves, bind. rewrite (sysbus_wf w st W).
  unfold uncached_bus, dbus_bus, bind, history. simpl.
  destruct (bus_connect w (trace st) System) as [e |] eqn:Hb; simpl.
  - right. eexists e, _. split; reflexivity.
  - unfold get_object, bind, history. simpl.
    destruct (bus_get_object w (EvBus System None :: trace st) System args)
      as [e |] eqn:Hg; simpl.
    + right. eexists e, _. split; reflexivity.
    + left. eexists _, _. split; [reflexivity |].
      split; [| split; reflexivity].
      intros n Hn. simpl. rewrite lookup_insert_ne; [apply W, Hn |].
      intros <-. discriminate Hn.
Qed.

Lemma bind_assoc {A B C} (m : M A) (f : A -> M B) (g : B -> M C) (st : state) :
  bind (bind m f) g st = bind m (fun x => bind (f x) g) st.
Proof. unfold bind. destruct (m st) as [[a | e] s]; reflexivity. Qed.

Lemma check_HAL_body (st : state) :
  (do sysbus <- _sysbus w;
   get_object w sysbus [PStr "org.freedesktop.Hal";
                        PStr "/org/freedesktop/Hal/devices/computer"];;
   ret true) st =
  (probe hal_endpoint;; ret true) st.
Proof. unfold probe. rewrite bind_assoc. reflexivity. Qed.

Lemma check_ConsoleKit_body (st : state) :
  (do sysbus <- _sysbus w;
   get_object w sysbus [PStr "org.freedesktop.ConsoleKit";
                        PStr "/org/freedesktop/ConsoleKit/Manager"];;
   do sysbus' <- _sysbus w;
   get_object w sysbus' [PStr "org.freedesktop.UPower";
                         PStr "/org/freedesktop/UPower"];;
   ret true) st =
  (probe consolekit_endpoint;; probe upower_endpoint;; ret true) st.
Proof.
  unfold probe, bind, consolekit_endpoint, upower_endpoint.
  repeat match goal with
         | |- context [match ?x with _ => _ end] =>
             lazymatch x with
             | context [match _ with _ => _ end] => fail
             | _ => destruct x; cbv beta iota
             end
         end; reflexivity.
Qed.

(** C5 (as amended). In a running program [check] never raises.  Under
    the HAL and the ConsoleKit backend its result is decided by the
    environment alone: [True] when the system bus connects and the backend's
    endpoints resolve (the HAL computer object; the ConsoleKit manager and
    UPower), [False] as soon as one of these fails.  Under any other backend
    it returns [False] and leaves the state as it was: nothing is
    resolved. *)
Theorem check_never_raises (self : DbusController) (st : state) :
  wf st ->
  (check w self st).1 = Ok (required_endpoints_resolve self (trace st)) /\
  (backend self <> PStr "HAL" -> backend self <> PStr "ConsoleKit" ->
   check w self st = (Ok false, st)).
Proof.
  intros W. split.
  - unfold check, required_endpoints_resolve.
    destruct (py_eq_str (backend self) "HAL") eqn:HH.
    { unfold try_except_DBusException.
      rewrite check_HAL_body. unfold bind.
      destruct (probe_cases hal_endpoint st W)
        as [(o & s1 & E & W1 & T & R) | (e & s1 & E & R)]; rewrite E, R;
        reflexivity. }
    destruct (py_eq_str (backend self) "ConsoleKit") eqn:HC; [| reflexivity].
    unfold try_except_DBusException.
    rewrite check_ConsoleKit_body. unfold bind.
    destruct (probe_cases consolekit_endpoint st W)
      as [(o & s1 & E & W1 & T & R) | (e & s1 & E & R)]; rewrite E, R;
      [| reflexivity].
    simpl in T.
    destruct (probe_cases upower_endpoint s1 W1)
      as [(o2 & s2 & E2 & W2 & T2 & R2) | (e & s2 & E2 & R2)];
      rewrite T in R2; rewrite E2, R2; reflexivity.
  - intros H1 H2. apply py_eq_str_false in H1, H2.
    unfold check. rewrite H1, H2. reflexivity.
Qed.

End Availability.

(** C5 as stated: [check] returns [False] exactly when a resolution failed. *)
Definition check_as_stated (w : World) (self : DbusController) (st : state) : Prop :=
  exists b l,
    (check w self st).1 = Ok b /\
    trace (check w self st).2 = l ++ trace st /\
    (b = false <-> existsb failed l = true).

(** With no backend selected nothing is resolved, so nothing fails, and yet
    [check] returns [False]. *)
Lemma check_as_stated_fails :
  ~ check_as_stated (sim_world sim_denied) NoBackend init_state.
Proof.
  intros (b & l & Hb & Hl & [H _]). simpl in Hb, Hl.
  injection Hb as <-. destruct l; [| discriminate Hl].
  specialize (H eq_refl). discriminate H.
Qed.

(** ** Capabilities *)

(** The only remote reads are those of the two capability flags, and no
    remote method is called. *)
Definition capability_read (ev : event) : Prop :=
  match ev with
  | EvGetAttr _ member _ => member = "CanSuspend" \/ member = "CanHibernate"
  | EvCall _ _ _ _ _ => False
  | _ => True
  end.

Section Capabilities.

Variable w : World.

(** The branch of [check_ability] for a recognised backend, over the
    property that yields its power interface. *)
Definition ability_of (power : M pyobj) (action : pyval) : M pyval :=
  if py_eq_str action "suspend" then
    do p <- power; read_member w p "CanSuspend"
  else if py_eq_str action "hibernate" then
    do p <- power; read_member w p "CanHibernate"
  else if py_eq_str action "safesuspend" then
    do p <- power;
    do can_hibernate <- read_member w p "CanHibernate";
    do unable <- (if negb (py_truthy can_hibernate) then ret true
                  else
                    do p' <- power;
                    do can_suspend <- read_member w p' "CanSuspend";
                    ret (negb (py_truthy can_suspend)));
    if unable then ret (PBool false) else ret (PBool true)
  else ret (PBool true).

Lemma check_ability_HAL (action : pyval) :
  check_ability w HAL action = ability_of (_halpm w) action.
Proof. reflexivity. Qed.

Lemma check_ability_ConsoleKit (action : pyval) :
  check_ability w ConsoleKit action = ability_of (_upower w) action.
Proof. reflexivity. Qed.

(** The system bus and the endpoint always resolve, and the two flags of
    the endpoint read the same at every time. *)
Definition stable_capabilities (endpoint : list pyval)
    (can_suspend can_hibernate : pyval) : Prop :=
  (forall h, bus_connect w h System = None) /\
  (forall h, bus_get_object w h System endpoint = None) /\
  (forall h i, px_args (if_obj i) = endpoint ->
               remote_getattr w h i "CanSuspend" = Reply can_suspend) /\
  (forall h i, px_args (if_obj i) = endpoint ->
               remote_getattr w h i "CanHibernate" = Reply can_hibernate).

Definition resolves (power : M pyobj) (endpoint : list pyval) : Prop :=
  forall st, wf st ->
    exists i s1, power st = (Ok (OInterface i), s1) /\ wf s1 /\
                 px_args (if_obj i) = endpoint.

Lemma uncached_resolves (buskey key iface : string) (endpoint : list pyval)
    (power : M pyobj) (vs vh : pyval) :
  String.prefix "__" buskey = false -> String.prefix "__" key = false ->
  stable_capabilities endpoint vs vh ->
  (forall st, wf st -> power st = uncached w System buskey key endpoint iface st) ->
  resolves power endpoint.
Proof.
  intros Hb Hk (HB & HG & _ & _) Hp st W. rewrite (Hp st W).
  unfold uncached, uncached_bus, dbus_bus, get_object, dbus_Interface, bind,
    history. simpl. rewrite HB. simpl. rewrite HG. simpl.
  eexists _, _. split; [reflexivity |]. split; [| reflexivity].
  intros n Hn. simpl.
  rewrite !lookup_insert_ne; [apply W, Hn | |]; intros <-; congruence.
Qed.

Lemma read_member_run (i : Interface) (member : string) (st : state) :
  read_member w (OInterface i) member st =
  (match remote_getattr w (trace st) i member with
   | Reply v => Ok v
   | Fault e => Raise (DBusException e)
   end,
   logged (EvGetAttr i member (remote_getattr w (trace st) i member)) st).
Proof.
  unfold read_member, bind. simpl.
  destruct (remote_getattr w (trace st) i member); reflexivity.
Qed.

Lemma ability_of_stable (power : M pyobj) (endpoint : list pyval)
    (vs vh : pyval) (st : state) :
  resolves power endpoint -> stable_capabilities endpoint vs vh -> wf st ->
  (ability_of power (PStr "suspend") st).1 = Ok vs /\
  (ability_of power (PStr "hibernate") st).1 = Ok vh /\
  (ability_of power (PStr "safesuspend") st).1 =
    Ok (PBool (py_truthy vs && py_truthy vh)).
Proof.
  intros Hres (_ & _ & HS & HH) W.
  destruct (Hres st W) as (i & s1 & Hp & W1 & Hi).
  split; [| split].
  - unfold ability_of. simpl. unfold bind.
    rewrite Hp, read_member_run, (HS _ i Hi). reflexivity.
  - unfold ability_of. simpl. unfold bind.
    rewrite Hp, read_member_run, (HH _ i Hi). reflexivity.
  - unfold ability_of. simpl. unfold bind at 1. rewrite Hp.
    unfold bind at 1. rewrite read_member_run, (HH _ i Hi).
    unfold bind at 1.
    destruct (py_truthy vh); simpl.
    + destruct (Hres (logged (EvGetAttr i "CanHibernate" (Reply vh)) s1) W1)
        as (i2 & s2 & Hp2 & W2 & Hi2).
      unfold bind. rewrite Hp2, read_member_run, (HS _ i2 Hi2). simpl.
      destruct (py_truthy vs); reflexivity.
    + rewrite andb_false_r. reflexivity.
Qed.

Lemma emits_ability_of (power : M pyobj) (action : pyval) :
  emits capability_read power -> emits capability_read (ability_of power action).
Proof.
  intros Hp. unfold ability_of.
  repeat first [ exact Hp
               | apply emits_read_member; intros; simpl; auto
               | emits_step ].
Qed.

Lemma resolution_capability_read (ev : event) :
  is_resolution ev -> capability_read ev.
Proof. destruct ev; simpl; intros H; try contradiction; exact I. Qed.

(** C6. Under the HAL and under the ConsoleKit backend, on a system whose
    power endpoint resolves and whose two capability flags do not change,
    [check_ability ('safesuspend')] is true iff [check_ability ('suspend')]
    and [check_ability ('hibernate')] both are; and the run for
    'safesuspend' reads no remote member other than [CanSuspend] and
    [CanHibernate] and calls no remote method. *)
Theorem safesuspend_iff_suspend_and_hibernate (self : DbusController)
    (vs vh : pyval) (st1 st2 st3 : state) :
  (backend self = PStr "HAL" /\ stable_capabilities hal_endpoint vs vh) \/
  (backend self = PStr "ConsoleKit" /\ stable_capabilities upower_endpoint vs vh) ->
  wf st1 -> wf st2 -> wf st3 ->
  exists r_safe r_suspend r_hibernate,
    (check_ability w self (PStr "safesuspend") st1).1 = Ok r_safe /\
    (check_ability w self (PStr "suspend") st2).1 = Ok r_suspend /\
    (check_ability w self (PStr "hibernate") st3).1 = Ok r_hibernate /\
    (py_truthy r_safe = true <->
     py_truthy r_suspend = true /\ py_truthy r_hibernate = true) /\
    exists l,
      trace (check_ability w self (PStr "safesuspend") st1).2 = l ++ trace st1 /\
      Forall capability_read l.
Proof.
  intros Hb W1 W2 W3.
  assert (H : exists power endpoint,
             (forall action, check_ability w self action = ability_of power action) /\
             resolves power endpoint /\ stable_capabilities endpoint vs vh /\
             emits capability_read power).
  { destruct self as [be]. simpl in Hb. destruct Hb as [[-> Hs] | [-> Hs]].
    - exists (_halpm w), hal_endpoint. split; [apply check_ability_HAL |].
      split; [| split; [exact Hs |]].
      + eapply uncached_resolves; [| | exact Hs | apply halpm_wf]; reflexivity.
      + apply emits_halpm, resolution_capability_read.
    - exists (_upower w), upower_endpoint. split; [apply check_ability_ConsoleKit |].
      split; [| split; [exact Hs |]].
      + eapply uncached_resolves; [| | exact Hs | apply upower_wf]; reflexivity.
      + apply emits_upower, resolution_capability_read. }
  destruct H as (power & endpoint & Heq & Hres & Hs & Hem).
  rewrite !Heq.
  destruct (ability_of_stable power endpoint vs vh st1 Hres Hs W1) as (_ & _ & E1).
  destruct (ability_of_stable power endpoint vs vh st2 Hres Hs W2) as (E2 & _ & _).
  destruct (ability_of_stable power endpoint vs vh st3 Hres Hs W3) as (_ & E3 & _).
  exists (PBool (py_truthy vs && py_truthy vh)), vs, vh.
  repeat (split; [assumption |]). split.
  - simpl. apply andb_true_iff.
  - destruct (emits_ability_of power (PStr "safesuspend") Hem st1) as [H _].
    exact H.
Qed.

End Capabilities.

(** ** Handles are rebuilt at every access *)

Definition is_bus_ctor (b : bus) (ev : event) : bool :=
  match ev, b with
  | EvBus System _, System | EvBus Session _, Session => true
  | _, _ => false
  end.

Definition is_interface_ctor (name : string) (ev : event) : bool :=
  match ev with
  | EvInterface i => String.eqb (if_name i) name
  | _ => false
  end.

(** Two accesses in a row, both successful: the constructor ran twice, and
    two interface objects so obtained are different objects. *)
Definition rebuilt (access : M pyobj) (ctor : event -> bool) (st : state) : Prop :=
  forall o1 s1 o2 s2,
    access st = (Ok o1, s1) -> access s1 = (Ok o2, s2) ->
    (exists l, trace s2 = l ++ trace st /\
               List.length (List.filter ctor l) = 2%nat) /\
    (forall i1 i2, o1 = OInterface i1 -> o2 = OInterface i2 ->
                   if_id i1 <> if_id i2).

Section Handles.

Variable w : World.

Lemma uncached_bus_ok (b : bus) (key : string) (st s1 : state) (o : pyobj) :
  String.prefix "__" key = false ->
  uncached_bus w b key st = (Ok o, s1) ->
  o = OBus b /\ trace s1 = [EvBus b None] ++ trace st /\ (wf st -> wf s1).
Proof.
  intros Hk. unfold uncached_bus, dbus_bus, bind, history. simpl.
  destruct (bus_connect w (trace st) b); simpl; [discriminate |].
  intros [= <- <-]. repeat split.
  intros W n Hn. simpl. rewrite lookup_insert_ne; [apply W, Hn |].
  intros <-. congruence.
Qed.

Lemma uncached_ok (b : bus) (buskey key iface : string) (args : list pyval)
    (st s1 : state) (o : pyobj) :
  String.prefix "__" buskey = false -> String.prefix "__" key = false ->
  uncached w b buskey key args iface st = (Ok o, s1) ->
  o = OInterface (mkInterface (S (next_id st)) (mkProxy (next_id st) b args) iface) /\
  trace s1 =
    [EvInterface (mkInterface (S (next_id st)) (mkProxy (next_id st) b args) iface);
     EvGetObject b args None; EvBus b None] ++ trace st /\
  next_id s1 = S (S (next_id st)) /\
  (wf st -> wf s1).
Proof.
  intros Hb Hk.
  unfold uncached, uncached_bus, dbus_bus, get_object, dbus_Interface, bind,
    history. simpl.
  destruct (bus_connect w (trace st) b); simpl; [discriminate |].
  destruct (bus_get_object w (EvBus b None :: trace st) b args); simpl;
    [discriminate |].
  intros [= <- <-]. repeat split.
  intros W n Hn. simpl.
  rewrite !lookup_insert_ne; [apply W, Hn | |]; intros <-; congruence.
Qed.

Lemma rebuilt_bus (b : bus) (key : string) (access : M pyobj) (st : state) :
  String.prefix "__" key = false ->
  (forall s, wf s -> access s = uncached_bus w b key s) ->
  wf st -> rebuilt access (is_bus_ctor b) st.
Proof.
  intros Hk Hacc W o1 s1 o2 s2 H1 H2.
  rewrite (Hacc st W) in H1.
  apply (uncached_bus_ok _ _ _ _ _ Hk) in H1 as (-> & T1 & W1).
  rewrite (Hacc s1 (W1 W)) in H2.
  apply (uncached_bus_ok _ _ _ _ _ Hk) in H2 as (-> & T2 & W2).
  split.
  - exists [EvBus b None; EvBus b None]. rewrite T2, T1.
    split; [reflexivity |]. destruct b; reflexivity.
  - intros i1 i2 [=].
Qed.

Lemma rebuilt_interface (b : bus) (buskey key iface : string)
    (args : list pyval) (access : M pyobj) (st : state) :
  String.prefix "__" buskey = false -> String.prefix "__" key = false ->
  (forall s, wf s -> access s = uncached w b buskey key args iface s) ->
  wf st -> rebuilt access (is_interface_ctor iface) st.
Proof.
  intros Hb Hk Hacc W o1 s1 o2 s2 H1 H2.
  rewrite (Hacc st W) in H1.
  apply (uncached_ok _ _ _ _ _ _ _ _ Hb Hk) in H1 as (-> & T1 & N1 & W1).
  rewrite (Hacc s1 (W1 W)) in H2.
  apply (uncached_ok _ _ _ _ _ _ _ _ Hb Hk) in H2 as (-> & T2 & N2 & W2).
  split.
  - eexists. rewrite T2, T1, app_assoc. split; [reflexivity |].
    simpl. rewrite !String.eqb_refl. reflexivity.
  - intros i1 i2 [= <-] [= <-]. simpl. rewrite N1. lia.
Qed.

(** C8 fails on the code.  In a running program (a well-formed class
    dictionary) every property finds [hasattr (DbusController, "__x")]
    false, because the handle was stored under the mangled name
    [_DbusController__x]: two accesses in a row run the constructor twice,
    and for the five interface properties they yield two different
    objects. *)
Theorem handles_rebuilt_at_every_access (st : state) :
  wf st ->
  rebuilt (_sysbus w) (is_bus_ctor System) st /\
  rebuilt (_sessbus w) (is_bus_ctor Session) st /\
  rebuilt (_upower w) (is_interface_ctor "org.freedesktop.UPower") st /\
  rebuilt (_polkit w) (is_interface_ctor "org.freedesktop.PolicyKit") st /\
  rebuilt (_consolekit w)
    (is_interface_ctor "org.freedesktop.ConsoleKit.Manager") st /\
  rebuilt (_halpm w)
    (is_interface_ctor "org.freedesktop.Hal.Device.SystemPowerManagement") st /\
  rebuilt (_authagent w)
    (is_interface_ctor "org.freedesktop.PolicyKit.AuthenticationAgent") st.
Proof.
  intros W. repeat apply conj.
  - eapply rebuilt_bus; [| apply sysbus_wf | exact W]; reflexivity.
  - eapply rebuilt_bus; [| apply sessbus_wf | exact W]; reflexivity.
  - eapply rebuilt_interface; [| | apply upower_wf | exact W]; reflexivity.
  - eapply rebuilt_interface; [| | apply polkit_wf | exact W]; reflexivity.
  - eapply rebuilt_interface; [| | apply consolekit_wf | exact W]; reflexivity.
  - eapply rebuilt_interface; [| | apply halpm_wf | exact W]; reflexivity.
  - eapply rebuilt_interface; [| | apply authagent_wf | exact W]; reflexivity.
Qed.

End Handles.

(** ** The theorems on concrete systems *)

(** One seat, one session; PolicyKit says "yes" from the start. *)
Definition sim_authorised : Sim :=
  {| sim_services := all_services;
     sim_seats := [("/Seat1", ["/Session1"])];
     sim_status_before := PStr "yes";
     sim_status_after := PStr "yes";
     sim_grant := Reply (PBool true);
     sim_can_suspend := PBool true;
     sim_can_hibernate := PBool true;
     sim_power := PInt 0 |}.

Definition reboot_id : string := "org.freedesktop.hal.power-management.reboot".
Definition reboot_multi_id : string :=
  "org.freedesktop.hal.power-management.reboot-multiple-sessions".

(** PolicyKit answers "auth_admin", the agent answers [False], PolicyKit then
    answers "yes": the authorization step returns [True]. *)
Lemma auth_perms_recheck_witness :
  exists polkit st0 l grant res2,
    _polkit (sim_world sim_granted_late) init_state = (Ok (OInterface polkit), st0) /\
    trace (auth_perms (sim_world sim_granted_late) 42 reboot_id init_state).2 =
      l ++ EvCall polkit "IsProcessAuthorized" (status_args 42 reboot_id) []
             (Reply (PStr "auth_admin")) :: trace st0 /\
    calls_of l =
      [("IsProcessAuthorized", status_args 42 reboot_id, Reply res2);
       ("ObtainAuthorization", obtain_args 42 reboot_id, Reply grant)] /\
    grant = PBool false /\ res2 = PStr "yes" /\
    (auth_perms (sim_world sim_granted_late) 42 reboot_id init_state).1 = Ok true.
Proof.
  pose proof (auth_perms_recheck (sim_world sim_granted_late) 42 reboot_id
                init_state) as H.
  edestruct H as [_ HB];
    [vm_compute; reflexivity | vm_compute; reflexivity | discriminate |].
  destruct (HB true (auth_perms (sim_world sim_granted_late) 42 reboot_id
                       init_state).2)
    as (l & grant & res2 & Hl & Hc & Hb); [vm_compute; reflexivity |].
  eexists _, _, l, grant, res2.
  split; [vm_compute; reflexivity |]. split; [exact Hl |]. split; [exact Hc |].
  pose proof (f_equal calls_of Hl) as E. rewrite calls_of_app, Hc in E.
  vm_compute in E.
  split; [congruence |]. split; [apply Hb; reflexivity | vm_compute; reflexivity].
Defined.

(** PolicyKit answers "yes" at once: no request is made. *)
Lemma auth_perms_short_circuit_witness :
  exists polkit st0,
    _polkit (sim_world sim_authorised) init_state = (Ok (OInterface polkit), st0) /\
    remote_call (sim_world sim_authorised) (trace st0) polkit "IsProcessAuthorized"
      (status_args 42 reboot_id) [] = Reply (PStr "yes") /\
    auth_perms (sim_world sim_authorised) 42 reboot_id init_state =
      (Ok true,
       logged (EvCall polkit "IsProcessAuthorized" (status_args 42 reboot_id) []
                 (Reply (PStr "yes"))) st0) /\
    exists l,
      trace (auth_perms (sim_world sim_authorised) 42 reboot_id init_state).2 =
        l ++ trace init_state /\
      Forall (fun ev => is_obtain ev = false) l.
Proof.
  eexists _, _. split; [vm_compute; reflexivity |].
  split; [vm_compute; reflexivity |].
  apply (auth_perms_short_circuit (sim_world sim_authorised) 42 reboot_id
           init_state); vm_compute; reflexivity.
Defined.

(** Two seats with one session each: the count is 2 and the run of [restart]
    authorizes the multiple-sessions identifier. *)
Lemma session_count_selects_identifier_witness :
  get_sessions (sim_world sim_denied) init_state =
    (Ok 2, (get_sessions (sim_world sim_denied) init_state).2) /\
  selects (sim_world sim_denied) 42 reboot_multi_id
    (restart (sim_world sim_denied) 42 HAL) init_state
    (get_sessions (sim_world sim_denied) init_state).2.
Proof.
  assert (Hs : get_sessions (sim_world sim_denied) init_state =
               (Ok 2, (get_sessions (sim_world sim_denied) init_state).2))
    by (vm_compute; reflexivity).
  split; [exact Hs |].
  destruct (session_count_selects_identifier (sim_world sim_denied) 42
              init_state _ 2 Hs) as (_ & Hmulti & _).
  apply Hmulti. lia.
Defined.

(** Two sessions, PolicyKit says "no" before and after the request:
    [restart] returns [False] and [Reboot] is not called. *)
Lemma denied_means_no_power_call_witness :
  get_sessions (sim_world sim_denied) init_state =
    (Ok 2, (get_sessions (sim_world sim_denied) init_state).2) /\
  restart (sim_world sim_denied) 42 HAL init_state =
    (Ok (PBool false),
     (auth_perms (sim_world sim_denied) 42 reboot_multi_id
        (get_sessions (sim_world sim_denied) init_state).2).2) /\
  no_power_call init_state
    (auth_perms (sim_world sim_denied) 42 reboot_multi_id
       (get_sessions (sim_world sim_denied) init_state).2).2.
Proof.
  assert (Hs : get_sessions (sim_world sim_denied) init_state =
               (Ok 2, (get_sessions (sim_world sim_denied) init_state).2))
    by (vm_compute; reflexivity).
  split; [exact Hs |].
  destruct (denied_means_no_power_call (sim_world sim_denied) 42 init_state)
    as (_ & _ & Hrestart & _).
  apply (Hrestart 2 _ _ Hs). vm_compute. reflexivity.
Defined.

(** HAL is on the bus: [check] returns [True]. *)
Lemma check_never_raises_witness :
  wf init_state /\
  required_endpoints_resolve (sim_world sim_denied) HAL (trace init_state)
    = true /\
  (check (sim_world sim_denied) HAL init_state).1 = Ok true.
Proof.
  split; [apply wf_init |]. split; [reflexivity |].
  apply (check_never_raises (sim_world sim_denied) HAL init_state wf_init).
Defined.

Lemma sim_stable (s : Sim) (name path : string) :
  existsb (String.eqb name) (sim_services s) = true ->
  stable_capabilities (sim_world s) [PStr name; PStr path]
    (sim_can_suspend s) (sim_can_hibernate s).
Proof.
  intros H. repeat split; intros; simpl; try reflexivity. rewrite H. reflexivity.
Qed.

(** UPower can suspend but not hibernate: no safe suspend. *)
Lemma safesuspend_iff_suspend_and_hibernate_witness :
  stable_capabilities (sim_world sim_granted_late) upower_endpoint
    (PBool true) (PBool false) /\
  exists r_safe r_suspend r_hibernate,
    (check_ability (sim_world sim_granted_late) ConsoleKit (PStr "safesuspend")
       init_state).1 = Ok r_safe /\
    (check_ability (sim_world sim_granted_late) ConsoleKit (PStr "suspend")
       init_state).1 = Ok r_suspend /\
    (check_ability (sim_world sim_granted_late) ConsoleKit (PStr "hibernate")
       init_state).1 = Ok r_hibernate /\
    (py_truthy r_safe = true <->
     py_truthy r_suspend = true /\ py_truthy r_hibernate = true) /\
    exists l,
      trace (check_ability (sim_world sim_granted_late) ConsoleKit
               (PStr "safesuspend") init_state).2 = l ++ trace init_state /\
      Forall capability_read l.
Proof.
  assert (Hs : stable_capabilities (sim_world sim_granted_late) upower_endpoint
                 (PBool true) (PBool false))
    by (apply (sim_stable sim_granted_late); reflexivity).
  split; [exact Hs |].
  apply (safesuspend_iff_suspend_and_hibernate (sim_world sim_granted_late)
           ConsoleKit (PBool true) (PBool false) init_state init_state init_state);
    [right; split; [reflexivity | exact Hs] | apply wf_init ..].
Defined.

(** A ConsoleKit manager that answers 0 to [Restart]. *)
Lemma consolekit_restart_shutdown_direct_witness :
  passes_through (sim_world sim_denied) "Restart"
    (restart (sim_world sim_denied) 42 ConsoleKit) init_state /\
  (restart (sim_world sim_denied) 42 ConsoleKit init_state).1 = Ok (PInt 0).
Proof.
  destruct (consolekit_restart_shutdown_direct (sim_world sim_denied) 42 init_state)
    as [Hr _].
  split; [exact Hr |].
  destruct Hr as (_ & Hcall & _).
  erewrite Hcall; [| vm_compute; reflexivity]. reflexivity.
Defined.

(** From a fresh process, two accesses to each property. *)
Lemma handles_rebuilt_at_every_access_witness :
  wf init_state /\
  rebuilt (_upower (sim_world sim_denied))
    (is_interface_ctor "org.freedesktop.UPower") init_state /\
  rebuilt (_sysbus (sim_world sim_denied)) (is_bus_ctor System) init_state.
Proof.
  split; [apply wf_init |].
  destruct (handles_rebuilt_at_every_access (sim_world sim_denied) init_state
              wf_init) as (Hsys & _ & Hup & _).
  split; assumption.
Defined.

(** [check_ability ('safesuspend')] under ConsoleKit reads two flags through
    [self._upower]: the UPower interface is built twice in one call. *)
Example upower_built_twice_in_one_call :
  List.length
    (List.filter (is_interface_ctor "org.freedesktop.UPower")
       (trace (check_ability (sim_world sim_denied) ConsoleKit
                 (PStr "safesuspend") init_state).2)) = 2%nat /\
  List.length
    (List.filter (is_bus_ctor System)
       (trace (check_ability (sim_world sim_denied) ConsoleKit
                 (PStr "safesuspend") init_state).2)) = 2%nat.
Proof. split; vm_compute; reflexivity. Qed.

(** No backend: nothing is available, everything is "supported". *)
Lemma check_ability_falls_through_witness :
  backend NoBackend <> PStr "HAL" /\ backend NoBackend <> PStr "ConsoleKit" /\
  check_ability (sim_world sim_denied) NoBackend (PStr "suspend") init_state =
    (Ok (PBool true), init_state) /\
  check (sim_world sim_denied) NoBackend init_state = (Ok false, init_state) /\
  restart (sim_world sim_denied) 42 NoBackend init_state =
    (Ok (PBool false), init_state) /\
  check_ability (sim_world sim_denied) HAL (PStr "poweroff") init_state =
    (Ok (PBool true), init_state).
Proof.
  assert (H1 : backend NoBackend <> PStr "HAL") by discriminate.
  assert (H2 : backend NoBackend <> PStr "ConsoleKit") by discriminate.
  split; [exact H1 |]. split; [exact H2 |].
  destruct (check_ability_falls_through (sim_world sim_denied) 42 NoBackend
              (PStr "suspend") init_state) as [Hb _].
  destruct (Hb H1 H2) as (Ha & Hc & Hr & _).
  split; [exact Ha |]. split; [exact Hc |]. split; [exact Hr |].
  destruct (check_ability_falls_through (sim_world sim_denied) 42 HAL
              (PStr "poweroff") init_state) as [_ Hact].
  apply Hact; discriminate.
Defined.

(** One session and PolicyKit says "yes" for "reboot": [restart] calls
    [Reboot] and no authorization request is made. *)
Example restart_authorised_at_once :
  (restart (sim_world sim_authorised) 42 HAL init_state).1 = Ok (PInt 0) /\
  map (fun c => c.1.1)
    (calls_of (trace (restart (sim_world sim_authorised) 42 HAL init_state).2)) =
  ["Reboot"; "IsProcessAuthorized"; "GetSessions"; "GetSeats"].
Proof. split; vm_compute; reflexivity. Qed.

(** Two sessions and PolicyKit says "no" before and after the request:
    [restart] returns [False] and [Reboot] is never called. *)
Example restart_denied :
  (restart (sim_world sim_denied) 42 HAL init_state).1 = Ok (PBool false) /\
  map (fun c => c.1.1)
    (calls_of (trace (restart (sim_world sim_denied) 42 HAL init_state).2)) =
  ["IsProcessAuthorized"; "ObtainAuthorization"; "IsProcessAuthorized";
   "GetSessions"; "GetSessions"; "GetSeats"].
Proof. split; vm_compute; reflexivity. Qed.

(** Two sessions under ConsoleKit: [restart] calls [Restart] and nothing
    else. *)
Example restart_consolekit :
  (restart (sim_world sim_denied) 42 ConsoleKit init_state).1 = Ok (PInt 0) /\
  map (fun c => c.1.1)
    (calls_of (trace (restart (sim_world sim_denied) 42 ConsoleKit init_state).2)) =
  ["Restart"].
Proof. split; vm_compute; reflexivity. Qed.

(** * Further properties of the controller *)

(** ** Failures are never swallowed outside [check] *)

(** The fault an event records, if any. *)
Definition fault_of (ev : event) : option string :=
  match ev with
  | EvBus _ err => err
  | EvGetObject _ _ err => err
  | EvCall _ _ _ _ (Fault e) => Some e
  | EvGetAttr _ _ (Fault e) => Some e
  | _ => None
  end.

Definition clean (l : list event) : Prop :=
  Forall (fun ev => fault_of ev = None) l.

(** [fail_fast m]: a run of [m] raises [DBusException e] exactly by stopping
    at an event that records the fault [e], every earlier event of the run
    being free of faults; a run that returns, or raises another exception,
    has no fault among its events. *)
Definition fail_fast {A} (m : M A) : Prop :=
  forall st, exists l,
    trace (m st).2 = l ++ trace st /\
    match (m st).1 with
    | Raise (DBusException e) =>
        exists ev l', l = ev :: l' /\ fault_of ev = Some e /\ clean l'
    | _ => clean l
    end.

Lemma fail_fast_silent {A} (m : M A) :
  (forall st, (m st).2 = st) ->
  (forall st e, (m st).1 <> Raise (DBusException e)) ->
  fail_fast m.
Proof.
  intros Hs Hr st. exists []. rewrite Hs. split; [reflexivity |].
  specialize (Hr st). destruct (m st).1 as [a | [e | | attr]];
    try constructor. exfalso. eapply Hr. reflexivity.
Qed.

Lemma fail_fast_ret {A} (a : A) : fail_fast (ret a).
Proof. apply fail_fast_silent; [reflexivity | discriminate]. Qed.

Lemma fail_fast_bind {A B} (m : M A) (k : A -> M B) :
  fail_fast m -> (forall a, fail_fast (k a)) -> fail_fast (bind m k).
Proof.
  intros Hm Hk st. unfold bind. destruct (Hm st) as (l1 & E1 & C1).
  destruct (m st) as [[a | e] s1]; simpl in E1, C1.
  - destruct (Hk a s1) as (l2 & E2 & C2). exists (l2 ++ l1).
    rewrite E2, E1, app_assoc. split; [reflexivity |].
    destruct (k a s1).1 as [b | [e | | attr]].
    + apply Forall_app. split; assumption.
    + destruct C2 as (ev & l' & -> & Hf & Hc). exists ev, (l' ++ l1).
      split; [reflexivity |]. split; [exact Hf |].
      apply Forall_app. split; assumption.
    + apply Forall_app. split; assumption.
    + apply Forall_app. split; assumption.
  - exists l1. simpl. split; [exact E1 | exact C1].
Qed.

Lemma fail_fast_hasattr (name : string) : fail_fast (hasattr name).
Proof. apply fail_fast_silent; [reflexivity | discriminate]. Qed.

Lemma fail_fast_history : fail_fast history.
Proof. apply fail_fast_silent; [reflexivity | discriminate]. Qed.

Lemma fail_fast_getattr (name : string) : fail_fast (getattr name).
Proof.
  apply fail_fast_silent; intros st; unfold getattr;
    destruct (attrs st !! name); simpl; [reflexivity .. | discriminate | discriminate].
Qed.

Lemma fail_fast_setattr (name : string) (v : pyobj) : fail_fast (setattr name v).
Proof. intros st. exists []. split; [reflexivity | constructor]. Qed.

Lemma fail_fast_fresh_id : fail_fast fresh_id.
Proof. intros st. exists []. split; [reflexivity | constructor]. Qed.

Lemma fail_fast_as_bus (o : pyobj) : fail_fast (as_bus o).
Proof. destruct o; apply fail_fast_silent; try reflexivity; discriminate. Qed.

Lemma fail_fast_as_interface (o : pyobj) : fail_fast (as_interface o).
Proof. destruct o; apply fail_fast_silent; try reflexivity; discriminate. Qed.

Lemma fail_fast_py_iter (v : pyval) : fail_fast (py_iter v).
Proof. destruct v; apply fail_fast_silent; try reflexivity; discriminate. Qed.

Lemma fail_fast_py_len (v : pyval) : fail_fast (py_len v).
Proof. destruct v; apply fail_fast_silent; try reflexivity; discriminate. Qed.

Section FailFast.

Variable w : World.
Variable pid : Z.

Lemma fail_fast_dbus_bus (b : bus) : fail_fast (dbus_bus w b).
Proof.
  intros st. unfold dbus_bus, bind, history. simpl.
  destruct (bus_connect w (trace st) b) as [e |] eqn:E; simpl.
  - exists [EvBus b (Some e)]. split; [reflexivity |].
    exists (EvBus b (Some e)), []. repeat split. constructor.
  - exists [EvBus b None]. split; [reflexivity |]. repeat constructor.
Qed.

Lemma fail_fast_get_object (o : pyobj) (args : list pyval) :
  fail_fast (get_object w o args).
Proof.
  destruct o as [b | i]; [| apply fail_fast_silent; [reflexivity | discriminate]].
  intros st. unfold get_object, bind, history. simpl.
  destruct (bus_get_object w (trace st) b args) as [e |] eqn:E; simpl.
  - exists [EvGetObject b args (Some e)]. split; [reflexivity |].
    exists (EvGetObject b args (Some e)), []. repeat split. constructor.
  - exists [EvGetObject b args None]. split; [reflexivity |]. repeat constructor.
Qed.

Lemma fail_fast_dbus_Interface (obj : ProxyObject) (name : string) :
  fail_fast (dbus_Interface obj name).
Proof.
  intros st. exists [EvInterface (mkInterface (next_id st) obj name)].
  split; [reflexivity |]. repeat constructor.
Qed.

Lemma fail_fast_call (o : pyobj) (member : string) (args : list pyval)
    (kwargs : list (string * pyval)) :
  fail_fast (call w o member args kwargs).
Proof.
  destruct o as [b | i]; [apply fail_fast_silent; [reflexivity | discriminate] |].
  intros st. rewrite call_run. simpl.
  exists [EvCall i member args kwargs (remote_call w (trace st) i member args kwargs)].
  split; [reflexivity |].
  destruct (remote_call w (trace st) i member args kwargs) as [v | e].
  - repeat constructor.
  - eexists _, []. repeat split. constructor.
Qed.

Lemma fail_fast_read_member (o : pyobj) (member : string) :
  fail_fast (read_member w o member).
Proof.
  destruct o as [b | i]; [apply fail_fast_silent; [reflexivity | discriminate] |].
  intros st. rewrite read_member_run. simpl.
  exists [EvGetAttr i member (remote_getattr w (trace st) i member)].
  split; [reflexivity |].
  destruct (remote_getattr w (trace st) i member) as [v | e].
  - repeat constructor.
  - eexists _, []. repeat split. constructor.
Qed.

Ltac fail_fast_step :=
  first
    [ apply fail_fast_ret
    | apply fail_fast_hasattr
    | apply fail_fast_history
    | apply fail_fast_getattr
    | apply fail_fast_setattr
    | apply fail_fast_fresh_id
    | apply fail_fast_py_iter
    | apply fail_fast_py_len
    | apply fail_fast_dbus_bus
    | apply fail_fast_get_object
    | apply fail_fast_dbus_Interface
    | apply fail_fast_call
    | apply fail_fast_read_member
    | match goal with
      | |- fail_fast (match ?x with _ => _ end) => destruct x
      end
    | apply fail_fast_bind; [| intros ?] ].

Lemma fail_fast_sysbus : fail_fast (_sysbus w).
Proof. unfold _sysbus, SystemBus. repeat fail_fast_step. Qed.

Lemma fail_fast_sessbus : fail_fast (_sessbus w).
Proof. unfold _sessbus, SessionBus. repeat fail_fast_step. Qed.

Ltac fail_fast_access :=
  repeat first [ apply fail_fast_sysbus | apply fail_fast_sessbus | fail_fast_step ].

Lemma fail_fast_upower : fail_fast (_upower w).
Proof. unfold _upower. fail_fast_access. Qed.

Lemma fail_fast_polkit : fail_fast (_polkit w).
Proof. unfold _polkit. fail_fast_access. Qed.

Lemma fail_fast_consolekit : fail_fast (_consolekit w).
Proof. unfold _consolekit. fail_fast_access. Qed.

Lemma fail_fast_halpm : fail_fast (_halpm w).
Proof. unfold _halpm. fail_fast_access. Qed.

Lemma fail_fast_authagent : fail_fast (_authagent w).
Proof. unfold _authagent. fail_fast_access. Qed.

Lemma fail_fast_count_sessions (seats : list pyval) (cnt : Z) :
  fail_fast (count_sessions w seats cnt).
Proof.
  revert cnt. induction seats as [| sid rest IH]; intros cnt; simpl;
    [apply fail_fast_ret |].
  unfold SystemBus. repeat first [apply IH | fail_fast_step].
Qed.

Ltac fail_fast_all :=
  repeat first
    [ apply fail_fast_upower | apply fail_fast_polkit | apply fail_fast_consolekit
    | apply fail_fast_halpm | apply fail_fast_authagent
    | apply fail_fast_count_sessions | fail_fast_step ].

Lemma fail_fast_get_sessions : fail_fast (get_sessions w).
Proof. unfold get_sessions. fail_fast_all. Qed.

Lemma fail_fast_auth_perms (id : string) : fail_fast (auth_perms w pid id).
Proof. unfold auth_perms, check_perms. fail_fast_all. Qed.

(** X1. [restart], [shutdown], [suspend], [hibernate] and [check_ability]
    never swallow a bus failure and never go on after one: a run raises
    [DBusException e] exactly by stopping at the event that records the fault
    [e], and a run that returns has no failed connection, resolution, call or
    member read among its events. *)
Theorem operations_fail_fast (self : DbusController) (action : pyval) :
  fail_fast (restart w pid self) /\
  fail_fast (shutdown w pid self) /\
  fail_fast (suspend w pid self) /\
  fail_fast (hibernate w pid self) /\
  fail_fast (check_ability w self action).
Proof.
  repeat apply conj.
  - unfold restart.
    repeat first [apply fail_fast_get_sessions | apply fail_fast_auth_perms
                 | fail_fast_all].
  - unfold shutdown.
    repeat first [apply fail_fast_get_sessions | apply fail_fast_auth_perms
                 | fail_fast_all].
  - unfold suspend. repeat first [apply fail_fast_auth_perms | fail_fast_all].
  - unfold hibernate. repeat first [apply fail_fast_auth_perms | fail_fast_all].
  - unfold check_ability. fail_fast_all.
Qed.

End FailFast.

(** ** How often PolicyKit and the agent are asked *)

(** [at_most P n m]: a run of [m] adds at most [n] events satisfying [P]. *)
Definition at_most {A} (P : event -> bool) (n : nat) (m : M A) : Prop :=
  forall st, exists l,
    trace (m st).2 = l ++ trace st /\
    (List.length (List.filter P l) <= n)%nat.

Lemma at_most_bind {A B} (P : event -> bool) (a b : nat) (m : M A)
    (k : A -> M B) :
  at_most P a m -> (forall x, at_most P b (k x)) -> at_most P (a + b) (bind m k).
Proof.
  intros Hm Hk st. unfold bind. destruct (Hm st) as (l1 & E1 & B1).
  destruct (m st) as [[x | e] s1]; simpl in E1.
  - destruct (Hk x s1) as (l2 & E2 & B2). exists (l2 ++ l1).
    rewrite E2, E1, app_assoc. split; [reflexivity |].
    rewrite List.filter_app, List.length_app. lia.
  - exists l1. simpl. split; [exact E1 | lia].
Qed.

Lemma at_most_weaken {A} (P : event -> bool) (a b : nat) (m : M A) :
  (a <= b)%nat -> at_most P a m -> at_most P b m.
Proof.
  intros Hab Hm st. destruct (Hm st) as (l & E & B). exists l.
  split; [exact E | lia].
Qed.

Lemma at_most_none {A} (P : event -> bool) (m : M A) :
  emits (fun ev => P ev = false) m -> at_most P 0 m.
Proof.
  intros Hm st. destruct (Hm st) as [(l & E & F) _]. exists l.
  split; [exact E |].
  assert (H : List.filter P l = []).
  { clear E. induction F as [| ev l Hev _ IH]; simpl; [reflexivity |].
    rewrite Hev. exact IH. }
  rewrite H. simpl. lia.
Qed.

Lemma at_most_ret {A} (P : event -> bool) (n : nat) (a : A) :
  at_most P n (ret a).
Proof. intros st. exists []. split; [reflexivity | simpl; lia]. Qed.

Section Asking.

Variable w : World.
Variable pid : Z.

Lemma at_most_call (P : event -> bool) (o : pyobj) (member : string)
    (args : list pyval) (kwargs : list (string * pyval)) :
  at_most P 1 (call w o member args kwargs).
Proof.
  intros st. destruct o as [b | i].
  - exists []. split; [reflexivity | simpl; lia].
  - rewrite call_run. simpl. eexists [_]. split; [reflexivity |].
    simpl. destruct (P _); simpl; lia.
Qed.

Lemma resolution_not_obtain (ev : event) :
  is_resolution ev -> is_obtain ev = false.
Proof. destruct ev; simpl; try contradiction; reflexivity. Qed.

Lemma resolution_not_status (ev : event) :
  is_resolution ev -> is_status_query ev = false.
Proof. destruct ev; simpl; try contradiction; reflexivity. Qed.

Lemma check_perms_asks (id : string) :
  at_most is_obtain 0 (check_perms w pid id) /\
  at_most is_status_query 1 (check_perms w pid id).
Proof.
  split.
  - apply at_most_none, emits_check_perms;
      [apply resolution_not_obtain | reflexivity].
  - unfold check_perms. apply (at_most_bind _ 0 1).
    + apply at_most_none, emits_polkit, resolution_not_status.
    + intros polkit. apply (at_most_bind _ 1 0); [apply at_most_call |].
      intros res. apply at_most_none. destruct (py_eq_str res "yes"); apply emits_ret.
Qed.

Lemma auth_perms_asks (id : string) :
  at_most is_obtain 1 (auth_perms w pid id) /\
  at_most is_status_query 2 (auth_perms w pid id).
Proof.
  destruct (check_perms_asks id) as [HO HS]. split.
  - unfold auth_perms. apply (at_most_bind _ 0 1); [exact HO |].
    intros granted. destruct granted.
    + apply at_most_ret.
    + apply (at_most_bind _ 0 1).
      * apply at_most_none, emits_authagent, resolution_not_obtain.
      * intros authagent. apply (at_most_bind _ 1 0); [apply at_most_call |].
        intros grant. exact HO.
  - unfold auth_perms. apply (at_most_bind _ 1 1); [exact HS |].
    intros granted. destruct granted.
    + apply at_most_ret.
    + apply (at_most_bind _ 0 1).
      * apply at_most_none, emits_authagent, resolution_not_status.
      * intros authagent. apply (at_most_bind _ 0 1).
        -- apply at_most_none, emits_call. reflexivity.
        -- intros grant. exact HS.
Qed.

Lemma gated_asks (id member : string) :
  String.eqb member "IsProcessAuthorized" = false ->
  String.eqb member "ObtainAuthorization" = false ->
  at_most is_obtain 1
    (do authorised <- auth_perms w pid id;
     if negb authorised then ret (PBool false)
     else do halpm <- _halpm w; call w halpm member [] []) /\
  at_most is_status_query 2
    (do authorised <- auth_perms w pid id;
     if negb authorised then ret (PBool false)
     else do halpm <- _halpm w; call w halpm member [] []).
Proof.
  intros N1 N2. destruct (auth_perms_asks id) as [HO HS]. split.
  - apply (at_most_bind _ 1 0); [exact HO |]. intros authorised.
    destruct authorised; simpl; [| apply at_most_ret].
    apply at_most_none. apply emits_bind; [apply emits_halpm, resolution_not_obtain |].
    intros halpm. apply emits_call. intros i r. simpl. exact N2.
  - apply (at_most_bind _ 2 0); [exact HS |]. intros authorised.
    destruct authorised; simpl; [| apply at_most_ret].
    apply at_most_none. apply emits_bind; [apply emits_halpm, resolution_not_status |].
    intros halpm. apply emits_call. intros i r. simpl. rewrite N1. reflexivity.
Qed.

Lemma direct_asks (power : M pyobj) (member : string) :
  emits is_resolution power ->
  String.eqb member "IsProcessAuthorized" = false ->
  String.eqb member "ObtainAuthorization" = false ->
  at_most is_obtain 0 (do p <- power; call w p member [] []) /\
  at_most is_status_query 0 (do p <- power; call w p member [] []).
Proof.
  intros Hp N1 N2. split; apply at_most_none.
  - apply emits_bind.
    + eapply emits_weaken; [apply resolution_not_obtain | exact Hp].
    + intros p. apply emits_call. intros i r. simpl. exact N2.
  - apply emits_bind.
    + eapply emits_weaken; [apply resolution_not_status | exact Hp].
    + intros p. apply emits_call. intros i r. simpl. rewrite N1. reflexivity.
Qed.

Lemma counted_asks (P : event -> bool) (n : nat) (k : Z -> M pyval) :
  (forall ev, is_resolution ev -> P ev = false) ->
  (forall i r, P (EvCall i "GetSeats" [] [] r) = false) ->
  (forall i r, P (EvCall i "GetSessions" [] [] r) = false) ->
  (forall cnt, at_most P n (k cnt)) ->
  at_most P n (do cnt <- get_sessions w; k cnt).
Proof.
  intros HR HG HS Hk. apply (at_most_bind _ 0 n); [| exact Hk].
  apply at_most_none, emits_get_sessions; assumption.
Qed.

(** X2. Whatever the backend and however the run ends, one call of
    [restart], [shutdown], [suspend] or [hibernate] asks the agent for an
    authorization at most once and queries PolicyKit at most twice. *)
Theorem operations_ask_at_most_once (self : DbusController) :
  (at_most is_obtain 1 (restart w pid self) /\
   at_most is_status_query 2 (restart w pid self)) /\
  (at_most is_obtain 1 (shutdown w pid self) /\
   at_most is_status_query 2 (shutdown w pid self)) /\
  (at_most is_obtain 1 (suspend w pid self) /\
   at_most is_status_query 2 (suspend w pid self)) /\
  (at_most is_obtain 1 (hibernate w pid self) /\
   at_most is_status_query 2 (hibernate w pid self)).
Proof.
  assert (Hret : forall (P : event -> bool) (n : nat) (v : pyval),
             at_most P n (ret v)) by (intros; apply at_most_ret).
  assert (Hdir : forall (power : M pyobj) (member : string),
             emits is_resolution power ->
             String.eqb member "IsProcessAuthorized" = false ->
             String.eqb member "ObtainAuthorization" = false ->
             at_most is_obtain 1 (do p <- power; call w p member [] []) /\
             at_most is_status_query 2 (do p <- power; call w p member [] [])).
  { intros power member Hp N1 N2.
    destruct (direct_asks power member Hp N1 N2) as [HO HS].
    split; (eapply at_most_weaken; [| eassumption]); lia. }
  repeat apply conj; unfold restart, shutdown, suspend, hibernate;
    (destruct (py_eq_str (backend self) "HAL");
     [| destruct (py_eq_str (backend self) "ConsoleKit"); [| apply Hret]]).
  all: try (apply counted_asks;
            [ first [apply resolution_not_obtain | apply resolution_not_status]
            | reflexivity | reflexivity | intros cnt; destruct (Z.gtb cnt 1) ]).
  all: try (apply gated_asks; reflexivity).
  all: first [ apply (fun p m H N1 N2 => proj1 (Hdir p m H N1 N2))
             | apply (fun p m H N1 N2 => proj2 (Hdir p m H N1 N2)) ];
    try reflexivity;
    first [ apply emits_consolekit | apply emits_upower ];
    exact (fun _ H => H).
Qed.

End Asking.

(** ** The session count *)

Definition reply_len (r : reply) : Z :=
  match r with
  | Reply (PArray l) => Z.of_nat (List.length l)
  | Reply (PStr s) => Z.of_nat (String.length s)
  | _ => 0
  end.

(** The sessions a [GetSessions] reply lists (0 for any other event). *)
Definition sessions_in (ev : event) : Z :=
  match ev with
  | EvCall _ member _ _ r =>
      if String.eqb member "GetSessions" then reply_len r else 0
  | _ => 0
  end.

Definition sessions_reported (l : list event) : Z :=
  fold_right (fun ev acc => sessions_in ev + acc) 0 l.

(** The object a [GetSessions] call is made on: interface name, bus and the
    arguments of [get_object]. *)
Definition sessions_target (ev : event) : option (string * bus * list pyval) :=
  match ev with
  | EvCall i member _ _ _ =>
      if String.eqb member "GetSessions"
      then Some (if_name i, px_bus (if_obj i), px_args (if_obj i))
      else None
  | _ => None
  end.

Definition seat_target (sid : pyval) : string * bus * list pyval :=
  ("org.freedesktop.ConsoleKit.Seat", System,
   [PStr "org.freedesktop.ConsoleKit"; sid]).

Lemma sessions_reported_app (l1 l2 : list event) :
  sessions_reported (l1 ++ l2) = sessions_reported l1 + sessions_reported l2.
Proof.
  induction l1 as [| ev l1 IH]; simpl; [reflexivity |]. rewrite IH. lia.
Qed.

Section SessionCount.

Variable w : World.

Lemma dbus_bus_ok (b : bus) (st s1 : state) (o : pyobj) :
  dbus_bus w b st = (Ok o, s1) -> o = OBus b /\ s1 = logged (EvBus b None) st.
Proof.
  unfold dbus_bus, bind, history. simpl.
  destruct (bus_connect w (trace st) b); simpl; [discriminate |].
  intros [= <- <-]. split; reflexivity.
Qed.

Lemma get_object_ok (b : bus) (args : list pyval) (st s1 : state)
    (o : ProxyObject) :
  get_object w (OBus b) args st = (Ok o, s1) ->
  o = mkProxy (next_id st) b args /\
  trace s1 = EvGetObject b args None :: trace st /\
  next_id s1 = S (next_id st).
Proof.
  unfold get_object, bind, history. simpl.
  destruct (bus_get_object w (trace st) b args); simpl; [discriminate |].
  intros [= <- <-]. repeat split.
Qed.

Lemma dbus_Interface_ok (obj : ProxyObject) (name : string) (st s1 : state)
    (o : pyobj) :
  dbus_Interface obj name st = (Ok o, s1) ->
  o = OInterface (mkInterface (next_id st) obj name) /\
  trace s1 = EvInterface (mkInterface (next_id st) obj name) :: trace st.
Proof. intros [= <- <-]. split; reflexivity. Qed.

Lemma py_len_ok (v : pyval) (st s1 : state) (k : Z) :
  py_len v st = (Ok k, s1) -> s1 = st /\ k = reply_len (Reply v).
Proof. destruct v; simpl; intros [= <- <-]; split; reflexivity. Qed.

Lemma count_sessions_spec (sids : list pyval) (cnt n : Z) (st s' : state) :
  count_sessions w sids cnt st = (Ok n, s') ->
  exists l,
    trace s' = l ++ trace st /\
    omap sessions_target (rev l) = map seat_target sids /\
    n = cnt + sessions_reported l.
Proof.
  revert cnt st. induction sids as [| sid rest IH]; intros cnt st; simpl.
  - intros [= <- <-]. exists []. repeat split. simpl. lia.
  - unfold SystemBus. unfold bind at 1.
    destruct (dbus_bus w System st) as [[b | e] s1] eqn:E1; [| discriminate].
    apply dbus_bus_ok in E1 as [-> ->].
    unfold bind at 1.
    destruct (get_object w (OBus System) _ _) as [[obj | e] s2] eqn:E2;
      [| discriminate].
    apply get_object_ok in E2 as (-> & T2 & _).
    unfold bind at 1.
    destruct (dbus_Interface _ _ s2) as [[seat | e] s3] eqn:E3; [| discriminate].
    apply dbus_Interface_ok in E3 as (-> & T3).
    unfold bind at 1.
    destruct (call w _ "GetSessions" [] [] s3) as [[v | e] s4] eqn:E4;
      [| discriminate].
    apply call_inv in E4 as (i & [= <-] & R4 & ->).
    unfold bind at 1.
    destruct (py_len v _) as [[k | e] s5] eqn:E5; [| discriminate].
    apply py_len_ok in E5 as [-> ->].
    intros H. apply IH in H as (l & El & Ht & Hn).
    exists (l ++ [EvCall (mkInterface (next_id s2)
                            (mkProxy (next_id (logged (EvBus System None) st))
                               System [PStr "org.freedesktop.ConsoleKit"; sid])
                            "org.freedesktop.ConsoleKit.Seat")
                    "GetSessions" [] [] (Reply v);
                  EvInterface (mkInterface (next_id s2)
                                 (mkProxy (next_id (logged (EvBus System None) st))
                                    System [PStr "org.freedesktop.ConsoleKit"; sid])
                                 "org.freedesktop.ConsoleKit.Seat");
                  EvGetObject System [PStr "org.freedesktop.ConsoleKit"; sid] None;
                  EvBus System None]).
    split; [| split].
    + rewrite El. simpl. rewrite T3, T2. simpl. rewrite <- app_assoc. reflexivity.
    + rewrite rev_app_distr, omap_app, Ht. reflexivity.
    + rewrite sessions_reported_app. simpl. simpl in Hn. lia.
Qed.

(** X3. When the ConsoleKit manager answers [GetSeats] with an array of
    seats and the count is returned: after that answer, [GetSessions] is
    called exactly once per seat, in the order of the array, each time on the
    [Seat] interface of that seat's object on the system bus, and the count
    is the total number of sessions those calls list.  With no seat the
    count is 0 and nothing more is asked. *)
Theorem get_sessions_sums_seats (st s0 : state) (consolekit : Interface)
    (seats : list string) :
  _consolekit w st = (Ok (OInterface consolekit), s0) ->
  remote_call w (trace s0) consolekit "GetSeats" [] [] = Reply (PArray seats) ->
  (forall n st1,
     get_sessions w st = (Ok n, st1) ->
     exists l,
       trace st1 =
         l ++ EvCall consolekit "GetSeats" [] [] (Reply (PArray seats))
           :: trace s0 /\
       omap sessions_target (rev l) = map seat_target (map PStr seats) /\
       n = sessions_reported l) /\
  (seats = [] ->
   get_sessions w st =
   (Ok 0, logged (EvCall consolekit "GetSeats" [] [] (Reply (PArray []))) s0)).
Proof.
  intros Hc Hr.
  assert (E : get_sessions w st =
              count_sessions w (map PStr seats) 0
                (logged (EvCall consolekit "GetSeats" [] []
                           (Reply (PArray seats))) s0)).
  { unfold get_sessions. unfold bind at 1. rewrite Hc.
    unfold bind at 1. rewrite call_run, Hr. reflexivity. }
  split.
  - intros n st1 H. rewrite E in H.
    apply count_sessions_spec in H as (l & El & Ht & Hn).
    exists l. split; [exact El |]. split; [exact Ht | lia].
  - intros ->. rewrite E. reflexivity.
Qed.

End SessionCount.

(** Two seats with one session each: each seat is asked once and the count
    is 2. *)
Lemma get_sessions_sums_seats_witness :
  exists consolekit s0 l,
    _consolekit (sim_world sim_denied) init_state
      = (Ok (OInterface consolekit), s0) /\
    remote_call (sim_world sim_denied) (trace s0) consolekit "GetSeats" [] []
      = Reply (PArray ["/Seat1"; "/Seat2"]) /\
    trace (get_sessions (sim_world sim_denied) init_state).2 =
      l ++ EvCall consolekit "GetSeats" [] [] (Reply (PArray ["/Seat1"; "/Seat2"]))
        :: trace s0 /\
    omap sessions_target (rev l) =
      map seat_target [PStr "/Seat1"; PStr "/Seat2"] /\
    2 = sessions_reported l.
Proof.
  edestruct (get_sessions_sums_seats (sim_world sim_denied) init_state)
    as [H _]; [vm_compute; reflexivity | vm_compute; reflexivity |].
  destruct (H 2 (get_sessions (sim_world sim_denied) init_state).2)
    as (l & El & Ht & Hn); [vm_compute; reflexivity |].
  eexists _, _, l. split; [vm_compute; reflexivity |].
  split; [vm_compute; reflexivity |]. split; [exact El |].
  split; [exact Ht | exact Hn].
Defined.

(** ** Suspend and hibernate *)

Section SuspendHibernate.

Variable w : World.
Variable pid : Z.

(** The run of [op] from [st] is: get the interface from [power], call
    [member] on it, return what the call returns; no PolicyKit query, no
    authorization request and no seat or session enumeration is made. *)
Definition direct_to (power : M pyobj) (member : string) (op : M pyval)
    (st : state) : Prop :=
  (exists l, trace (op st).2 = l ++ trace st /\ Forall ungated l) /\
  (forall p st1,
     power st = (Ok (OInterface p), st1) ->
     op st =
     (result_of_reply (remote_call w (trace st1) p member [] []),
      logged (EvCall p member [] []
                (remote_call w (trace st1) p member [] [])) st1)) /\
  (forall e st1, power st = (Raise e, st1) -> op st = (Raise e, st1)).

Lemma direct_to_intro (power : M pyobj) (member : string) (st : state) :
  emits ungated power ->
  existsb (String.eqb member)
    ["IsProcessAuthorized"; "ObtainAuthorization"; "GetSeats"; "GetSessions"]
    = false ->
  direct_to power member (do p <- power; call w p member [] []) st.
Proof.
  intros Hp Hm. split; [| split].
  - assert (E : emits ungated (do p <- power; call w p member [] [])).
    { apply emits_bind; [exact Hp |].
      intros p. apply emits_call. intros i r. unfold ungated.
      simpl in Hm |- *.
      destruct (String.eqb member "IsProcessAuthorized");
        destruct (String.eqb member "ObtainAuthorization");
        destruct (String.eqb member "GetSeats");
        destruct (String.eqb member "GetSessions");
        simpl in Hm |- *; try discriminate; repeat split. }
    destruct (E st) as [H _]. exact H.
  - intros p st1 Hc. unfold bind. rewrite Hc, call_run.
    destruct (remote_call w (trace st1) p member [] []); reflexivity.
  - intros e st1 Hc. unfold bind. rewrite Hc. reflexivity.
Qed.

(** X4. Under the ConsoleKit backend [suspend] and [hibernate] resolve the
    UPower interface, call [Suspend] (resp. [Hibernate]) on it and return
    what that call returns, value or fault; they make no PolicyKit query, no
    authorization request and no seat or session enumeration. *)
Theorem consolekit_suspend_hibernate_direct (st : state) :
  direct_to (_upower w) "Suspend" (suspend w pid ConsoleKit) st /\
  direct_to (_upower w) "Hibernate" (hibernate w pid ConsoleKit) st.
Proof.
  split.
  - apply (direct_to_intro (_upower w) "Suspend" st);
      [apply emits_upower, resolution_ungated | reflexivity].
  - apply (direct_to_intro (_upower w) "Hibernate" st);
      [apply emits_upower, resolution_ungated | reflexivity].
Qed.

(** The run of [op] from [st] authorizes [id] without counting sessions:
    every status query and authorization request names [id], no seat or
    session is enumerated, and once PolicyKit is resolved from [st] itself
    the status query for [id] is issued. *)
Definition authorizes_uncounted (id : string) (op : M pyval) (st : state) : Prop :=
  (exists l,
     trace (op st).2 = l ++ trace st /\
     Forall (fun ev => auth_event_for id ev /\ is_session_call ev = false) l) /\
  (forall polkit st0,
     _polkit w st = (Ok (OInterface polkit), st0) ->
     exists l,
       trace (op st).2 =
       l ++ EvCall polkit "IsProcessAuthorized" (status_args pid id) []
              (remote_call w (trace st0) polkit "IsProcessAuthorized"
                 (status_args pid id) []) :: trace st0).

Lemma hal_gated_uncounted (id member : string) (st : state) :
  existsb (String.eqb member)
    ["IsProcessAuthorized"; "ObtainAuthorization"; "GetSeats"; "GetSessions"]
    = false ->
  authorizes_uncounted id (hal_gated w pid id member) st.
Proof.
  intros Hm. split.
  - destruct (emits_hal_gated w pid
                (fun ev => auth_event_for id ev /\ is_session_call ev = false)
                id member) with (st := st) as [H _]; [| | | | exact H].
    + intros [] H; simpl in H; try contradiction; split; try exact I; reflexivity.
    + intros i r. split; [intros _; eexists; reflexivity | reflexivity].
    + intros i r. split; [intros _; eexists; reflexivity | reflexivity].
    + intros i r. simpl in Hm |- *.
      destruct (String.eqb member "IsProcessAuthorized") eqn:E1;
        destruct (String.eqb member "ObtainAuthorization") eqn:E2;
        destruct (String.eqb member "GetSeats") eqn:E3;
        destruct (String.eqb member "GetSessions") eqn:E4;
        simpl in Hm |- *; try discriminate.
      split; [| reflexivity].
      intros [-> | ->]; discriminate.
  - intros polkit st0 Hp. apply hal_gated_first_query, Hp.
Qed.

(** X5. Under the HAL backend [suspend] and [hibernate] never count
    sessions: they enumerate no seat and no session, and the authorization
    they ask for is always for the one identifier
    "org.freedesktop.hal.power-management.suspend" (resp. "...hibernate"),
    whose status query is the first call once PolicyKit is resolved. *)
Theorem hal_suspend_hibernate_fixed_identifier (st : state) :
  authorizes_uncounted "org.freedesktop.hal.power-management.suspend"
    (suspend w pid HAL) st /\
  authorizes_uncounted "org.freedesktop.hal.power-management.hibernate"
    (hibernate w pid HAL) st.
Proof.
  split.
  - apply (hal_gated_uncounted "org.freedesktop.hal.power-management.suspend"
             "Suspend" st). reflexivity.
  - apply (hal_gated_uncounted "org.freedesktop.hal.power-management.hibernate"
             "Hibernate" st). reflexivity.
Qed.

(** X6. Under the HAL backend, in a running program where the system bus
    connects but the ConsoleKit manager cannot be resolved, [restart] and
    [shutdown] raise that resolution's [DBusException]; the run consists of
    the connection and the failed resolution only, so PolicyKit is never
    queried and nothing is rebooted or shut down. *)
Theorem hal_restart_needs_consolekit (st : state) (e : string) :
  wf st ->
  bus_connect w (trace st) System = None ->
  bus_get_object w (EvBus System None :: trace st) System consolekit_endpoint
    = Some e ->
  (restart w pid HAL st).1 = Raise (DBusException e) /\
  (shutdown w pid HAL st).1 = Raise (DBusException e) /\
  trace (restart w pid HAL st).2 =
    [EvGetObject System consolekit_endpoint (Some e); EvBus System None]
      ++ trace st /\
  trace (shutdown w pid HAL st).2 =
    [EvGetObject System consolekit_endpoint (Some e); EvBus System None]
      ++ trace st.
Proof.
  intros W Hb Hg.
  assert (Hs : exists s1,
             get_sessions w st = (Raise (DBusException e), s1) /\
             trace s1 =
               [EvGetObject System consolekit_endpoint (Some e); EvBus System None]
                 ++ trace st).
  { unfold get_sessions. unfold bind at 1. rewrite (consolekit_wf w st W).
    unfold uncached, uncached_bus, dbus_bus, get_object, bind, history. simpl.
    rewrite Hb. simpl. unfold consolekit_endpoint in Hg. rewrite Hg. simpl.
    eexists. split; reflexivity. }
  destruct Hs as (s1 & Hs & T).
  rewrite (restart_HAL_raise w pid st s1 _ Hs), (shutdown_HAL_raise w pid st s1 _ Hs).
  repeat split; exact T.
Qed.

End SuspendHibernate.

(** A HAL system without ConsoleKit. *)
Definition sim_no_consolekit : Sim :=
  {| sim_services := ["org.freedesktop.Hal"; "org.freedesktop.PolicyKit";
                      "org.freedesktop.PolicyKit.AuthenticationAgent"];
     sim_seats := [];
     sim_status_before := PStr "yes";
     sim_status_after := PStr "yes";
     sim_grant := Reply (PBool true);
     sim_can_suspend := PBool true;
     sim_can_hibernate := PBool true;
     sim_power := PInt 0 |}.

Lemma hal_restart_needs_consolekit_witness :
  wf init_state /\
  bus_get_object (sim_world sim_no_consolekit) (EvBus System None :: trace init_state)
    System consolekit_endpoint
    = Some "org.freedesktop.DBus.Error.ServiceUnknown" /\
  (restart (sim_world sim_no_consolekit) 42 HAL init_state).1 =
    Raise (DBusException "org.freedesktop.DBus.Error.ServiceUnknown").
Proof.
  split; [apply wf_init |]. split; [reflexivity |].
  apply (hal_restart_needs_consolekit (sim_world sim_no_consolekit) 42 init_state
           "org.freedesktop.DBus.Error.ServiceUnknown" wf_init);
    reflexivity.
Defined.

(** ** What [check] does on the bus and on the terminal *)

Definition is_print (ev : event) : bool :=
  match ev with EvPrint _ => true | _ => false end.

(** A connection to the system bus, a resolution on it, or a line printed. *)
Definition probe_or_print (ev : event) : Prop :=
  match ev with
  | EvBus System _ | EvGetObject System _ _ | EvPrint _ => True
  | _ => False
  end.

(** The line [check] prints for a backend. *)
Definition fallback_message (self : DbusController) : string :=
  if py_eq_str (backend self) "HAL"
  then "No .service files for HAL, fallbacking to none"
  else "No .service files for ConsoleKit or UPower, fallbacking to none".

Section CheckEvents.

Variable w : World.

Lemma probe_shape (args : list pyval) (st : state) :
  wf st ->
  (exists o s1,
     probe w args st = (Ok o, s1) /\ wf s1 /\
     trace s1 = [EvGetObject System args None; EvBus System None] ++ trace st) \/
  (exists e s1,
     probe w args st = (Raise (DBusException e), s1) /\
     (trace s1 = [EvBus System (Some e)] ++ trace st \/
      trace s1 = [EvGetObject System args (Some e); EvBus System None] ++ trace st)).
Proof.
  intros W. unfold probe, bind. rewrite (sysbus_wf w st W).
  unfold uncached_bus, dbus_bus, bind, history. simpl.
  destruct (bus_connect w (trace st) System) as [e |] eqn:Hb; simpl.
  - right. eexists e, _. split; [reflexivity |]. left. reflexivity.
  - unfold get_object, bind, history. simpl.
    destruct (bus_get_object w (EvBus System None :: trace st) System args)
      as [e |] eqn:Hg; simpl.
    + right. eexists e, _. split; [reflexivity |]. right. reflexivity.
    + left. eexists _, _. split; [reflexivity |]. split; [| reflexivity].
      intros n Hn. simpl. rewrite lookup_insert_ne; [apply W, Hn |].
      intros <-. discriminate Hn.
Qed.

(** What the run of [check] looks like: only system-bus probes and prints;
    nothing printed when it returns [True]; when it returns [False] under a
    recognised backend, the backend's message printed once, as the last
    event; and the UPower endpoint probed only after the ConsoleKit endpoint
    resolved. *)
Definition check_run (self : DbusController) (r : result bool)
    (l : list event) : Prop :=
  Forall probe_or_print l /\
  (r = Ok true -> Forall (fun ev => is_print ev = false) l) /\
  (r = Ok false ->
   backend self = PStr "HAL" \/ backend self = PStr "ConsoleKit" ->
   exists l', l = EvPrint (fallback_message self) :: l' /\
              Forall (fun ev => is_print ev = false) l') /\
  (forall err, In (EvGetObject System upower_endpoint err) l ->
               In (EvGetObject System consolekit_endpoint None) l).

Ltac check_run_case :=
  unfold check_run, fallback_message, hal_endpoint, consolekit_endpoint,
    upower_endpoint;
  repeat match goal with
         | H : py_eq_str _ _ = _ |- _ => rewrite H
         end;
  simpl;
  split;
  [ repeat constructor
  | split;
    [ first [ intros; discriminate | intros _; repeat constructor ]
    | split;
      [ first [ intros; discriminate
              | intros _ _; eexists; split; [reflexivity | repeat constructor] ]
      | intros err H; simpl in H; intuition (try discriminate; auto) ] ] ].

Ltac run_prefix :=
  simpl;
  first [ eexists [_]; split; [reflexivity |]
        | eexists [_; _]; split; [reflexivity |]
        | eexists [_; _; _]; split; [reflexivity |]
        | eexists [_; _; _; _]; split; [reflexivity |]
        | eexists [_; _; _; _; _]; split; [reflexivity |] ].

(** X7. In a running program [check] does nothing but connect to the system
    bus, resolve objects on it and print: it builds no interface, calls no
    remote method and reads no remote member.  It prints nothing when it
    returns [True]; when it returns [False] under the HAL or the ConsoleKit
    backend it has printed that backend's message once, as its last action;
    and under ConsoleKit it probes UPower only after the ConsoleKit manager
    resolved. *)
Theorem check_probes_and_prints (self : DbusController) (st : state) :
  wf st ->
  exists l,
    trace (check w self st).2 = l ++ trace st /\
    check_run self (check w self st).1 l.
Proof.
  intros W. unfold check.
  destruct (py_eq_str (backend self) "HAL") eqn:HH.
  { unfold try_except_DBusException.
    rewrite check_HAL_body. unfold bind.
    destruct (probe_shape hal_endpoint st W)
      as [(o & s1 & E & W1 & T) | (e & s1 & E & [T | T])]; rewrite E; simpl;
      rewrite T; run_prefix; check_run_case. }
  destruct (py_eq_str (backend self) "ConsoleKit") eqn:HC.
  { unfold try_except_DBusException.
    rewrite check_ConsoleKit_body. unfold bind.
    destruct (probe_shape consolekit_endpoint st W)
      as [(o & s1 & E & W1 & T) | (e & s1 & E & [T | T])]; rewrite E; simpl.
    - destruct (probe_shape upower_endpoint s1 W1)
        as [(o2 & s2 & E2 & W2 & T2) | (e & s2 & E2 & [T2 | T2])]; rewrite E2;
        simpl; rewrite T2, T; run_prefix; check_run_case.
    - rewrite T. run_prefix. check_run_case.
    - rewrite T. run_prefix. check_run_case. }
  exists []. split; [reflexivity |].
  apply py_eq_str_false in HH, HC.
  unfold check_run. simpl. repeat apply conj.
  - constructor.
  - discriminate.
  - intros _ [H | H]; contradiction.
  - intros err H. contradiction.
Qed.

End CheckEvents.

(** ** The safesuspend capability *)

Section SafeSuspend.

Variable w : World.

(** With the power interface resolved from [st], a [CanHibernate] that
    reads false settles the answer: [False], after that single read. *)
Definition hibernate_decides (power : M pyobj) (self : DbusController)
    (st : state) : Prop :=
  forall i s1 v,
    power st = (Ok (OInterface i), s1) ->
    remote_getattr w (trace s1) i "CanHibernate" = Reply v ->
    py_truthy v = false ->
    check_ability w self (PStr "safesuspend") st =
    (Ok (PBool false), logged (EvGetAttr i "CanHibernate" (Reply v)) s1).

Lemma ability_of_short_circuit (power : M pyobj) (st s1 : state)
    (i : Interface) (v : pyval) :
  power st = (Ok (OInterface i), s1) ->
  remote_getattr w (trace s1) i "CanHibernate" = Reply v ->
  py_truthy v = false ->
  ability_of w power (PStr "safesuspend") st =
  (Ok (PBool false), logged (EvGetAttr i "CanHibernate" (Reply v)) s1).
Proof.
  intros Hp Hr Ht. unfold ability_of. simpl.
  unfold bind at 1. rewrite Hp.
  unfold bind at 1. rewrite read_member_run, Hr.
  unfold bind at 1. rewrite Ht. reflexivity.
Qed.

Lemma ability_of_bool (power : M pyobj) (st st' : state) (r : pyval) :
  ability_of w power (PStr "safesuspend") st = (Ok r, st') ->
  exists b, r = PBool b.
Proof.
  unfold ability_of. simpl. unfold bind at 1.
  destruct (power st) as [[p | e] s1]; [| discriminate].
  unfold bind at 1.
  destruct (read_member w p "CanHibernate" s1) as [[vh | e] s2]; [| discriminate].
  unfold bind at 1.
  destruct (py_truthy vh); simpl.
  - unfold bind at 1.
    destruct (power s2) as [[p' | e] s3]; [| discriminate].
    unfold bind at 1.
    destruct (read_member w p' "CanSuspend" s3) as [[vs | e] s4]; [| discriminate].
    simpl. destruct (py_truthy vs); simpl; intros [= <- _]; eexists; reflexivity.
  - intros [= <- _]. eexists; reflexivity.
Qed.

(** X8. [check_ability ('safesuspend')] reads [CanHibernate] first, under
    HAL from the HAL interface and under ConsoleKit from UPower; when that
    flag reads false the answer is [False] after this single read, so
    [CanSuspend] is not read.  Whatever the backend, when the call returns
    its result is a bool. *)
Theorem safesuspend_hibernate_first (st : state) :
  hibernate_decides (_halpm w) HAL st /\
  hibernate_decides (_upower w) ConsoleKit st /\
  (forall self r st',
     check_ability w self (PStr "safesuspend") st = (Ok r, st') ->
     exists b, r = PBool b).
Proof.
  repeat apply conj.
  - intros i s1 v Hp Hr Ht. rewrite check_ability_HAL.
    apply ability_of_short_circuit; assumption.
  - intros i s1 v Hp Hr Ht. rewrite check_ability_ConsoleKit.
    apply ability_of_short_circuit; assumption.
  - intros self r st'. unfold check_ability.
    destruct (py_eq_str (backend self) "HAL");
      [| destruct (py_eq_str (backend self) "ConsoleKit")].
    + apply (ability_of_bool (_halpm w)).
    + apply (ability_of_bool (_upower w)).
    + intros [= <- _]. eexists; reflexivity.
Qed.

End SafeSuspend.

(** ** The class dictionary over a whole session *)

(** The names under which the seven properties store their handles. *)
Definition handle_names : list string :=
  ["_DbusController__sysbus"; "_DbusController__sessbus";
   "_DbusController__upower"; "_DbusController__polkit";
   "_DbusController__consolekit"; "_DbusController__halpm";
   "_DbusController__authagent"].

Definition only_handles (st : state) : Prop :=
  forall k, is_Some (attrs st !! k) -> In k handle_names.

(** [keeps m]: a run of [m] creates no class attribute outside
    [handle_names]. *)
Definition keeps {A} (m : M A) : Prop :=
  forall st, only_handles st -> only_handles (m st).2.

Lemma keeps_same_attrs {A} (m : M A) :
  (forall st, attrs (m st).2 = attrs st) -> keeps m.
Proof. intros H st I k. rewrite H. apply I. Qed.

Lemma keeps_bind {A B} (m : M A) (k : A -> M B) :
  keeps m -> (forall a, keeps (k a)) -> keeps (bind m k).
Proof.
  intros Hm Hk st I. unfold bind. specialize (Hm st I).
  destruct (m st) as [[a | e] s1]; simpl in Hm; [apply Hk, Hm | exact Hm].
Qed.

Lemma keeps_try {A} (body handler : M A) :
  keeps body -> keeps handler -> keeps (try_except_DBusException body handler).
Proof.
  intros Hb Hh st I. unfold try_except_DBusException. specialize (Hb st I).
  destruct (body st) as [[a | [e | | attr]] s1]; simpl in Hb; auto.
Qed.

Lemma keeps_setattr (name : string) (v : pyobj) :
  In name handle_names -> keeps (setattr name v).
Proof.
  intros Hn st I k. simpl. destruct (decide (k = name)) as [-> | Hne].
  - intros _. exact Hn.
  - rewrite lookup_insert_ne by congruence. apply I.
Qed.

Lemma keeps_getattr (name : string) : keeps (getattr name).
Proof.
  apply keeps_same_attrs. intros st. unfold getattr.
  destruct (attrs st !! name); reflexivity.
Qed.

Lemma keeps_as_bus (o : pyobj) : keeps (as_bus o).
Proof. destruct o; apply keeps_same_attrs; reflexivity. Qed.

Lemma keeps_as_interface (o : pyobj) : keeps (as_interface o).
Proof. destruct o; apply keeps_same_attrs; reflexivity. Qed.

Lemma keeps_py_iter (v : pyval) : keeps (py_iter v).
Proof. destruct v; apply keeps_same_attrs; reflexivity. Qed.

Lemma keeps_py_len (v : pyval) : keeps (py_len v).
Proof. destruct v; apply keeps_same_attrs; reflexivity. Qed.

Ltac keeps_step :=
  first
    [ apply keeps_setattr; simpl; tauto
    | apply keeps_getattr
    | apply keeps_as_bus
    | apply keeps_as_interface
    | apply keeps_py_iter
    | apply keeps_py_len
    | apply keeps_same_attrs; reflexivity
    | apply keeps_try
    | match goal with
      | |- keeps (match ?x with _ => _ end) => destruct x
      end
    | apply keeps_bind; [| intros ?] ].

(** What a caller can ask of a controller. *)
Inductive request : Type :=
| DoCheck
| DoCheckAbility (action : pyval)
| DoRestart
| DoShutdown
| DoSuspend
| DoHibernate
| DoSafesuspend.

Section Sessions.

Variable w : World.
Variable pid : Z.

Lemma keeps_count_sessions (seats : list pyval) (cnt : Z) :
  keeps (count_sessions w seats cnt).
Proof.
  revert cnt. induction seats as [| sid rest IH]; intros cnt; simpl.
  - apply keeps_same_attrs. reflexivity.
  - unfold SystemBus, dbus_bus, get_object, dbus_Interface, call.
    repeat first [apply IH | keeps_step].
Qed.

Ltac keeps_all :=
  unfold get_sessions, auth_perms, check_perms,
    _upower, _polkit, _consolekit, _halpm, _authagent, _sysbus, _sessbus,
    SystemBus, SessionBus, dbus_bus, get_object, dbus_Interface, call,
    read_member, print;
  repeat first [apply keeps_count_sessions | keeps_step].

(** The state after the call; an exception the call raises is the
    caller's to handle and leaves the state where the call left it. *)
Definition perform (self : DbusController) (r : request) (st : state) : state :=
  match r with
  | DoCheck => (check w self st).2
  | DoCheckAbility action => (check_ability w self action st).2
  | DoRestart => (restart w pid self st).2
  | DoShutdown => (shutdown w pid self st).2
  | DoSuspend => (suspend w pid self st).2
  | DoHibernate => (hibernate w pid self st).2
  | DoSafesuspend => (safesuspend self st).2
  end.

(** A sequence of calls, on controllers that may differ: the class
    attributes are shared by all instances. *)
Fixpoint session (calls : list (DbusController * request)) (st : state) : state :=
  match calls with
  | [] => st
  | (self, r) :: rest => session rest (perform self r st)
  end.

Lemma perform_keeps (self : DbusController) (r : request) (st : state) :
  only_handles st -> only_handles (perform self r st).
Proof.
  intros I. destruct r; simpl.
  - assert (H : keeps (check w self)) by (unfold check; keeps_all). apply H, I.
  - assert (H : keeps (check_ability w self action))
      by (unfold check_ability; keeps_all).
    apply H, I.
  - assert (H : keeps (restart w pid self)) by (unfold restart; keeps_all).
    apply H, I.
  - assert (H : keeps (shutdown w pid self)) by (unfold shutdown; keeps_all).
    apply H, I.
  - assert (H : keeps (suspend w pid self)) by (unfold suspend; keeps_all).
    apply H, I.
  - assert (H : keeps (hibernate w pid self)) by (unfold hibernate; keeps_all).
    apply H, I.
  - exact I.
Qed.

(** X9. From a fresh process, after any sequence of calls on controllers of
    any backends, whether they returned or raised, the class holds no
    attribute other than the seven mangled handle names: none of the names
    the properties test with [hasattr] ever exists, and each of these tests
    still answers [False]. *)
Theorem session_keeps_guards_false (calls : list (DbusController * request)) :
  only_handles (session calls init_state) /\
  wf (session calls init_state) /\
  Forall (fun name =>
            hasattr name (session calls init_state) =
            (Ok false, session calls init_state))
    ["__sysbus"; "__sessbus"; "__upower"; "__polkit"; "__consolekit";
     "__halpm"; "__authagent"].
Proof.
  assert (I : only_handles (session calls init_state)).
  { assert (G : forall st, only_handles st -> only_handles (session calls st)).
    { induction calls as [| [self r] rest IH]; intros st Hst; simpl;
        [exact Hst | apply IH, perform_keeps, Hst]. }
    apply G. intros k [v Hv]. simpl in Hv. rewrite lookup_empty in Hv.
    discriminate. }
  assert (W : wf (session calls init_state)).
  { intros n Hn. destruct (attrs (session calls init_state) !! n) eqn:E;
      [| reflexivity].
    exfalso. assert (Hin : In n handle_names) by (apply I; eauto).
    simpl in Hin. intuition (subst; discriminate). }
  split; [exact I |]. split; [exact W |].
  repeat constructor; apply hasattr_wf; first [exact W | reflexivity].
Qed.

End Sessions.

(** ** Where the handles are kept *)

(** A successful access from [st] returns an object that [describes]
    holds of, leaves it in the class under [key], changes no attribute
    other than those in [touched], and creates nothing under the name
    [literal] that the property's [hasattr] test looks for. *)
Definition stores (access : M pyobj) (key literal : string)
    (touched : list string) (describes : pyobj -> Prop) (st : state) : Prop :=
  forall o s1,
    access st = (Ok o, s1) ->
    describes o /\
    attrs s1 !! key = Some o /\
    attrs s1 !! literal = None /\
    (forall k, ~ In k touched -> attrs s1 !! k = attrs st !! k).

(** An interface named [iface] on the object that [get_object (args)]
    resolved on [b]. *)
Definition interface_on (b : bus) (args : list pyval) (iface : string)
    (o : pyobj) : Prop :=
  exists i, o = OInterface i /\ if_name i = iface /\
            px_bus (if_obj i) = b /\ px_args (if_obj i) = args.

Section Storage.

Variable w : World.

Lemma uncached_bus_attrs (b : bus) (key : string) (st s1 : state) (o : pyobj) :
  uncached_bus w b key st = (Ok o, s1) ->
  o = OBus b /\ attrs s1 = <[key := OBus b]> (attrs st).
Proof.
  unfold uncached_bus, dbus_bus, bind, history. simpl.
  destruct (bus_connect w (trace st) b); simpl; [discriminate |].
  intros [= <- <-]. split; reflexivity.
Qed.

Lemma uncached_attrs (b : bus) (buskey key iface : string) (args : list pyval)
    (st s1 : state) (o : pyobj) :
  uncached w b buskey key args iface st = (Ok o, s1) ->
  interface_on b args iface o /\
  attrs s1 = <[key := o]> (<[buskey := OBus b]> (attrs st)).
Proof.
  unfold uncached, uncached_bus, dbus_bus, get_object, dbus_Interface, bind,
    history. simpl.
  destruct (bus_connect w (trace st) b); simpl; [discriminate |].
  destruct (bus_get_object w (EvBus b None :: trace st) b args); simpl;
    [discriminate |].
  intros [= <- <-]. split; [| reflexivity].
  eexists. repeat split.
Qed.

Lemma stores_bus (b : bus) (key literal : string) (access : M pyobj)
    (st : state) :
  String.prefix "__" key = false -> String.prefix "__" literal = true ->
  (forall s, wf s -> access s = uncached_bus w b key s) ->
  wf st -> stores access key literal [key] (eq (OBus b)) st.
Proof.
  intros Hk Hl Hacc W o s1 H. rewrite (Hacc st W) in H.
  apply uncached_bus_attrs in H as [-> E]. rewrite E.
  split; [reflexivity |]. split; [apply lookup_insert_eq |]. split.
  - rewrite lookup_insert_ne; [apply W, Hl | intros <-; congruence].
  - intros k Hn. rewrite lookup_insert_ne; [reflexivity |].
    intros <-. apply Hn. left. reflexivity.
Qed.

Lemma stores_interface (b : bus) (buskey key literal iface : string)
    (args : list pyval) (access : M pyobj) (st : state) :
  String.prefix "__" buskey = false -> String.prefix "__" key = false ->
  String.prefix "__" literal = true ->
  (forall s, wf s -> access s = uncached w b buskey key args iface s) ->
  wf st ->
  stores access key literal [buskey; key] (interface_on b args iface) st.
Proof.
  intros Hb Hk Hl Hacc W o s1 H. rewrite (Hacc st W) in H.
  apply uncached_attrs in H as [D E]. rewrite E.
  split; [exact D |]. split; [apply lookup_insert_eq |]. split.
  - rewrite !lookup_insert_ne; [apply W, Hl | |]; intros <-; congruence.
  - intros k Hn. rewrite !lookup_insert_ne; [reflexivity | |];
      intros <-; apply Hn; simpl; auto.
Qed.

(** X10. In a running program a successful access to a property returns
    the object it has just built (the bus, or the interface of its
    endpoint), leaves exactly that object in the class under the mangled
    name [_DbusController__x], touches no class attribute other than its own
    and that of the bus it goes through, and creates nothing under the name
    [__x] that its [hasattr] test looks for. *)
Theorem handles_stored_under_mangled_names (st : state) :
  wf st ->
  stores (_sysbus w) "_DbusController__sysbus" "__sysbus"
    ["_DbusController__sysbus"] (eq (OBus System)) st /\
  stores (_sessbus w) "_DbusController__sessbus" "__sessbus"
    ["_DbusController__sessbus"] (eq (OBus Session)) st /\
  stores (_upower w) "_DbusController__upower" "__upower"
    ["_DbusController__sysbus"; "_DbusController__upower"]
    (interface_on System upower_endpoint "org.freedesktop.UPower") st /\
  stores (_polkit w) "_DbusController__polkit" "__polkit"
    ["_DbusController__sysbus"; "_DbusController__polkit"]
    (interface_on System [PStr "org.freedesktop.PolicyKit"; PStr "/"]
       "org.freedesktop.PolicyKit") st /\
  stores (_consolekit w) "_DbusController__consolekit" "__consolekit"
    ["_DbusController__sysbus"; "_DbusController__consolekit"]
    (interface_on System consolekit_endpoint
       "org.freedesktop.ConsoleKit.Manager") st /\
  stores (_halpm w) "_DbusController__halpm" "__halpm"
    ["_DbusController__sysbus"; "_DbusController__halpm"]
    (interface_on System hal_endpoint
       "org.freedesktop.Hal.Device.SystemPowerManagement") st /\
  stores (_authagent w) "_DbusController__authagent" "__authagent"
    ["_DbusController__sessbus"; "_DbusController__authagent"]
    (interface_on Session
       [PStr "org.freedesktop.PolicyKit.AuthenticationAgent"; PStr "/";
        PStr "org.gnome.PolicyKit.AuthorizationManager.SingleInstance"]
       "org.freedesktop.PolicyKit.AuthenticationAgent") st.
Proof.
  intros W. repeat apply conj.
  - eapply stores_bus; [| | apply sysbus_wf | exact W]; reflexivity.
  - eapply stores_bus; [| | apply sessbus_wf | exact W]; reflexivity.
  - eapply stores_interface; [| | | apply upower_wf | exact W]; reflexivity.
  - eapply stores_interface; [| | | apply polkit_wf | exact W]; reflexivity.
  - eapply stores_interface; [| | | apply consolekit_wf | exact W]; reflexivity.
  - eapply stores_interface; [| | | apply halpm_wf | exact W]; reflexivity.
  - eapply stores_interface; [| | | apply authagent_wf | exact W]; reflexivity.
Qed.

End Storage.

(** From a fresh process: the UPower interface ends up under
    [_DbusController__upower]. *)
Lemma handles_stored_under_mangled_names_witness :
  wf init_state /\
  exists o s1,
    _upower (sim_world sim_denied) init_state = (Ok o, s1) /\
    attrs s1 !! "_DbusController__upower" = Some o /\
    attrs s1 !! "__upower" = None.
Proof.
  split; [apply wf_init |].
  destruct (handles_stored_under_mangled_names (sim_world sim_denied) init_state
              wf_init) as (_ & _ & Hup & _).
  eexists _, _. split; [vm_compute; reflexivity |].
  edestruct Hup as (_ & Hk & Hl & _); [vm_compute; reflexivity |].
  split; [exact Hk | exact Hl].
Defined.

(** ** The HAL action once authorized *)

Section HalAction.

Variable w : World.
Variable pid : Z.

(** Once the authorization of [id] (started in [st_auth]) has returned
    [True] and the HAL interface is resolved, the run of [op] from [st] ends
    with the call of [member] on it and returns what that call returns. *)
Definition hal_passes (id member : string) (op : M pyval)
    (st_auth st : state) : Prop :=
  forall s1 halpm s2,
    auth_perms w pid id st_auth = (Ok true, s1) ->
    _halpm w s1 = (Ok (OInterface halpm), s2) ->
    op st =
    (result_of_reply (remote_call w (trace s2) halpm member [] []),
     logged (EvCall halpm member [] []
               (remote_call w (trace s2) halpm member [] [])) s2).

Lemma hal_gated_passes (id member : string) (st : state) :
  hal_passes id member (hal_gated w pid id member) st st.
Proof.
  intros s1 halpm s2 Ha Hh. unfold hal_gated, bind. rewrite Ha. simpl.
  rewrite Hh, call_run.
  destruct (remote_call w (trace s2) halpm member [] []); reflexivity.
Qed.

(** X11. Under the HAL backend, once the authorization step has returned
    [True] and the HAL power-management interface is resolved, [suspend],
    [hibernate], [restart] and [shutdown] call [Suspend], [Hibernate],
    [Reboot], [Shutdown] on it as their last action and return exactly what
    that call returns (the value as it is, or its fault as an exception). *)
Theorem hal_action_passes_through (st : state) :
  hal_passes "org.freedesktop.hal.power-management.suspend" "Suspend"
    (suspend w pid HAL) st st /\
  hal_passes "org.freedesktop.hal.power-management.hibernate" "Hibernate"
    (hibernate w pid HAL) st st /\
  (forall cnt st1,
     get_sessions w st = (Ok cnt, st1) ->
     hal_passes
       (if Z.gtb cnt 1
        then "org.freedesktop.hal.power-management.reboot-multiple-sessions"
        else "org.freedesktop.hal.power-management.reboot")
       "Reboot" (restart w pid HAL) st1 st /\
     hal_passes
       (if Z.gtb cnt 1
        then "org.freedesktop.hal.power-management.shutdown-multiple-sessions"
        else "org.freedesktop.hal.power-management.shutdown")
       "Shutdown" (shutdown w pid HAL) st1 st).
Proof.
  repeat apply conj.
  - intros s1 halpm s2. rewrite suspend_HAL. apply hal_gated_passes.
  - intros s1 halpm s2. rewrite hibernate_HAL. apply hal_gated_passes.
  - intros cnt st1 Hs. split; intros s1 halpm s2.
    + rewrite (restart_HAL w pid st st1 cnt Hs). apply hal_gated_passes.
    + rewrite (shutdown_HAL w pid st st1 cnt Hs). apply hal_gated_passes.
Qed.

End HalAction.

(** ** Everything the controller ever does on the bus *)

Definition hal_identifiers : list string :=
  ["org.freedesktop.hal.power-management.reboot-multiple-sessions";
   "org.freedesktop.hal.power-management.reboot";
   "org.freedesktop.hal.power-management.shutdown-multiple-sessions";
   "org.freedesktop.hal.power-management.shutdown";
   "org.freedesktop.hal.power-management.suspend";
   "org.freedesktop.hal.power-management.hibernate"].

(** The events a run of a public operation may consist of, for a process
    [pid]: connections, resolutions and interface constructions; a printed
    line; a read of one of the two capability flags; the seat and session
    enumeration; a status query or an authorization request (with the fixed
    arguments and the 300 s timeout) for one of the six HAL identifiers; or
    one of the six power calls, without arguments. *)
Definition known_event (pid : Z) (ev : event) : Prop :=
  match ev with
  | EvBus _ _ | EvGetObject _ _ _ | EvInterface _ | EvPrint _ => True
  | EvGetAttr _ member _ => In member ["CanSuspend"; "CanHibernate"]
  | EvCall _ member args kwargs _ =>
      (In member ["GetSeats"; "GetSessions"; "Reboot"; "Shutdown"; "Suspend";
                  "Hibernate"; "Restart"; "Stop"] /\ args = [] /\ kwargs = []) \/
      (exists id, In id hal_identifiers /\
         ((member = "IsProcessAuthorized" /\ args = status_args pid id /\
           kwargs = []) \/
          (member = "ObtainAuthorization" /\ args = obtain_args pid id /\
           kwargs = obtain_kwargs)))
  end.

Section Vocabulary.

Variable w : World.
Variable pid : Z.

Lemma known_resolution (ev : event) : is_resolution ev -> known_event pid ev.
Proof. destruct ev; simpl; intros H; try contradiction; exact I. Qed.

Lemma known_plain_call (i : Interface) (member : string) (r : reply) :
  In member ["GetSeats"; "GetSessions"; "Reboot"; "Shutdown"; "Suspend";
             "Hibernate"; "Restart"; "Stop"] ->
  known_event pid (EvCall i member [] [] r).
Proof. intros H. left. repeat split. exact H. Qed.

Lemma emits_known_gated (id member : string) :
  In id hal_identifiers ->
  In member ["GetSeats"; "GetSessions"; "Reboot"; "Shutdown"; "Suspend";
             "Hibernate"; "Restart"; "Stop"] ->
  emits (known_event pid)
    (do authorised <- auth_perms w pid id;
     if negb authorised then ret (PBool false)
     else do halpm <- _halpm w; call w halpm member [] []).
Proof.
  intros Hid Hm. apply (emits_hal_gated w pid (known_event pid) id member).
  - apply known_resolution.
  - intros i r. right. exists id. split; [exact Hid |]. left. repeat split.
  - intros i r. right. exists id. split; [exact Hid |]. right. repeat split.
  - intros i r. apply known_plain_call, Hm.
Qed.

Lemma emits_known_sessions : emits (known_event pid) (get_sessions w).
Proof.
  apply emits_get_sessions;
    [apply known_resolution | |]; intros; apply known_plain_call; simpl; tauto.
Qed.

Lemma emits_known_direct (power : M pyobj) (member : string) :
  emits is_resolution power ->
  In member ["GetSeats"; "GetSessions"; "Reboot"; "Shutdown"; "Suspend";
             "Hibernate"; "Restart"; "Stop"] ->
  emits (known_event pid) (do p <- power; call w p member [] []).
Proof.
  intros Hp Hm. apply emits_bind.
  - eapply emits_weaken; [apply known_resolution | exact Hp].
  - intros p. apply emits_call. intros i r. apply known_plain_call, Hm.
Qed.

Ltac known_op :=
  repeat first
    [ apply emits_known_sessions
    | apply emits_known_gated; simpl; tauto
    | apply emits_known_direct;
        [ first [ apply emits_consolekit | apply emits_upower ];
          exact (fun _ H => H)
        | simpl; tauto ]
    | apply emits_ret
    | match goal with
      | |- emits _ (if ?c then _ else _) => destruct c
      end
    | apply emits_bind; [| intros ?] ].

(** X12. Every event of a run of [check], [check_ability], [restart],
    [shutdown], [suspend] or [hibernate], whatever the backend and the
    outcome, is one of: a bus connection, an object resolution, an interface
    construction, a printed line, a read of [CanSuspend] or [CanHibernate],
    a [GetSeats] or [GetSessions] call, a status query or an authorization
    request with the fixed arguments (and [timeout=300]) for one of the six
    HAL identifiers, or an argument-less [Reboot], [Shutdown], [Suspend],
    [Hibernate], [Restart] or [Stop]. *)
Theorem operations_stay_in_vocabulary (self : DbusController) (action : pyval) :
  emits (known_event pid) (check w self) /\
  emits (known_event pid) (check_ability w self action) /\
  emits (known_event pid) (restart w pid self) /\
  emits (known_event pid) (shutdown w pid self) /\
  emits (known_event pid) (suspend w pid self) /\
  emits (known_event pid) (hibernate w pid self).
Proof.
  repeat apply conj.
  - unfold check, print.
    repeat first [ apply emits_sysbus, known_resolution
                 | apply emits_get_object; intros; exact I
                 | apply emits_log; exact I
                 | emits_step ].
  - unfold check_ability.
    repeat first [ apply emits_halpm, known_resolution
                 | apply emits_upower, known_resolution
                 | apply emits_read_member; intros; simpl; tauto
                 | emits_step ].
  - unfold restart. known_op.
  - unfold shutdown. known_op.
  - unfold suspend. known_op.
  - unfold hibernate. known_op.
Qed.

End Vocabulary.

(** ** The further properties on concrete systems *)

(** ConsoleKit is not on the bus: under the ConsoleKit backend [check]
    prints its message and returns [False], without probing UPower. *)
Lemma check_probes_and_prints_witness :
  wf init_state /\
  exists l,
    trace (check (sim_world sim_no_consolekit) ConsoleKit init_state).2 =
      l ++ trace init_state /\
    check_run ConsoleKit
      (check (sim_world sim_no_consolekit) ConsoleKit init_state).1 l /\
    (check (sim_world sim_no_consolekit) ConsoleKit init_state).1 = Ok false.
Proof.
  split; [apply wf_init |].
  destruct (check_probes_and_prints (sim_world sim_no_consolekit) ConsoleKit
              init_state wf_init) as (l & El & Hl).
  exists l. split; [exact El |]. split; [exact Hl | reflexivity].
Defined.

(** UPower cannot hibernate: one read settles 'safesuspend'. *)
Lemma safesuspend_hibernate_first_witness :
  exists i s1,
    _upower (sim_world sim_granted_late) init_state = (Ok (OInterface i), s1) /\
    remote_getattr (sim_world sim_granted_late) (trace s1) i "CanHibernate"
      = Reply (PBool false) /\
    check_ability (sim_world sim_granted_late) ConsoleKit (PStr "safesuspend")
      init_state =
    (Ok (PBool false), logged (EvGetAttr i "CanHibernate" (Reply (PBool false))) s1).
Proof.
  destruct (safesuspend_hibernate_first (sim_world sim_granted_late) init_state)
    as (_ & Hck & _).
  eexists _, _. split; [vm_compute; reflexivity |]. split; [reflexivity |].
  apply Hck; [vm_compute; reflexivity | reflexivity | reflexivity].
Defined.

(** UPower answers 0 to [Suspend]. *)
Lemma consolekit_suspend_hibernate_direct_witness :
  exists p st1,
    _upower (sim_world sim_denied) init_state = (Ok (OInterface p), st1) /\
    suspend (sim_world sim_denied) 42 ConsoleKit init_state =
    (Ok (PInt 0), logged (EvCall p "Suspend" [] [] (Reply (PInt 0))) st1).
Proof.
  destruct (consolekit_suspend_hibernate_direct (sim_world sim_denied) 42
              init_state) as [(_ & Hcall & _) _].
  eexists _, _. split; [vm_compute; reflexivity |].
  erewrite Hcall; [| vm_compute; reflexivity]. reflexivity.
Defined.

(** PolicyKit is resolved and asked about "suspend". *)
Lemma hal_suspend_hibernate_fixed_identifier_witness :
  exists polkit st0 l,
    _polkit (sim_world sim_denied) init_state = (Ok (OInterface polkit), st0) /\
    trace (suspend (sim_world sim_denied) 42 HAL init_state).2 =
      l ++ EvCall polkit "IsProcessAuthorized"
             (status_args 42 "org.freedesktop.hal.power-management.suspend") []
             (Reply (PStr "no")) :: trace st0.
Proof.
  destruct (hal_suspend_hibernate_fixed_identifier (sim_world sim_denied) 42
              init_state) as [[_ Hq] _].
  edestruct Hq as [l Hl]; [vm_compute; reflexivity |].
  eexists _, _, l. split; [vm_compute; reflexivity |]. exact Hl.
Defined.

(** One session, authorized at once: [restart] returns what [Reboot] does. *)
Lemma hal_action_passes_through_witness :
  exists st1 s1 halpm s2,
    get_sessions (sim_world sim_authorised) init_state = (Ok 1, st1) /\
    auth_perms (sim_world sim_authorised) 42 reboot_id st1 = (Ok true, s1) /\
    _halpm (sim_world sim_authorised) s1 = (Ok (OInterface halpm), s2) /\
    restart (sim_world sim_authorised) 42 HAL init_state =
      (Ok (PInt 0), logged (EvCall halpm "Reboot" [] [] (Reply (PInt 0))) s2).
Proof.
  destruct (hal_action_passes_through (sim_world sim_authorised) 42 init_state)
    as (_ & _ & H).
  eexists _, _, _, _.
  split; [vm_compute; reflexivity |]. split; [vm_compute; reflexivity |].
  split; [vm_compute; reflexivity |].
  edestruct H as [Hr _]; [vm_compute; reflexivity |].
  erewrite Hr; [| vm_compute; reflexivity | vm_compute; reflexivity].
  reflexivity.
Defined.
